(** * StudySync: session lifecycle and analytics

    A shallow embedding of the request handlers that carry the logic of the
    application:

    - [src/app/api/sessions/route.ts]: [POST] (start a study session),
      [PUT] (complete a session and add its duration to the task) and
      [GET] (list the sessions);
    - the analytics route ([GET], file [src/unnamed/part_002]): totals,
      estimation accuracy, hourly/daily breakdowns, streak and insights;
    - [DELETE] of [src/app/api/tasks/route.ts], and the countdown of the
      timer component that starts and completes sessions
      ([src/unnamed/part_004]).

    Conventions of the embedding.

    - A JavaScript [Date] is its epoch value in milliseconds, a [Z].
    - A JavaScript number that holds a count of minutes, pomodoros or
      milliseconds is a [Z], and [Math.floor (a / b)] on such integers is
      [Z.div].
    - The hours that the analytics derive from minutes ([totalMinutes / 60]
      and the sums of such quotients) are IEEE 754 binary64 numbers, with
      the arithmetic of [SpecFloat]: the maximum over the hours of the day
      and the rounding of the summary depend on how these sums round.
    - The hours of a task ([estimatedHours], [actualHours]) and what is
      computed from them are exact rationals [Q]: the properties stated of
      them are those of the formulas, floating-point rounding aside.
    - The MongoDB collections are finite maps from document id to document.
      [POST] is split at the [await] between its query and its insertion;
      every other handler runs against the store as one step.
    - The server clock is read once per request ([now]). The server's time
      zone is a parameter: it gives the offset from UTC at each instant and
      at each local time, so that [date.setDate(date.getDate() - k)] is
      calendar arithmetic on local time.
    - [d.toISOString().split('T')[0]] is the UTC calendar date of [d]; it is
      represented by the number of that day since the epoch, which the date
      string determines and is determined by. *)

From Stdlib Require Import ZArith QArith Qabs Qround Lia Lqa.
From Stdlib Require Import Floats.SpecFloat.
From stdpp Require Import gmap strings list fin_maps sorting pretty.

Local Open Scope Z_scope.

(** ** Documents *)

Definition UserId := nat.
Definition TaskId := nat.
Definition SessionId := nat.

(** [models/StudySession.ts]. A field that a handler may assign [undefined]
    to is an [option]. *)
Module StudySession.
Record t := mk {
  userId : UserId;
  taskId : TaskId;
  startTime : Z;
  endTime : option Z;               (* null means session is still active *)
  pomodorosCompleted : option Z;
  totalMinutes : Z;
  wasCompleted : option bool;
  notes : string;
  createdAt : Z
}.
End StudySession.

(** The Task model ([src/unnamed/part_006]): the fields that the handlers
    read or write, and those that the schema validates when a task is
    saved. A stored task need not pass the validation: the task route
    updates tasks with [findOneAndUpdate], which runs no validator. *)
Module Task.
Record t := mk {
  userId : UserId;
  title : string;
  subject : string;
  priority : string;
  deadline : option Z;
  estimatedHours : Q;
  actualHours : Q;
  status : string
}.

(** The validation that [task.save()] runs: [title], [subject] and
    [deadline] are required (a required string must not be empty), and
    [priority] and [status] must be values of their [enum]. [userId] and
    [estimatedHours], also required, are present by type. *)
Definition validates (task : t) : bool :=
  bool_decide (title task ≠ ""
               ∧ subject task ≠ ""
               ∧ priority task ∈ ["low"; "medium"; "high"]
               ∧ is_Some (deadline task)
               ∧ status task ∈ ["pending"; "in-progress"; "completed"]).
End Task.

Record Store := mkStore {
  sessions : gmap SessionId StudySession.t;
  tasks : gmap TaskId Task.t
}.

(** What a handler answers: [NextResponse.json(body, { status })], or one of
    the [{ error: msg }] bodies. *)
Inductive Response (A : Type) : Type :=
  | Json (status : nat) (body : A)
  | Failure (status : nat) (error : string).
Arguments Json {A} status body.
Arguments Failure {A} status error.

(** ** Session lifecycle ([src/app/api/sessions/route.ts]) *)

Module Lifecycle.

(** The filter [{ userId, endTime: null }]. *)
Definition isActiveOf (u : UserId) (s : StudySession.t) : Prop :=
  StudySession.userId s = u ∧ StudySession.endTime s = None.

#[global] Instance isActiveOf_dec u s : Decision (isActiveOf u s).
Proof. unfold isActiveOf. apply _. Defined.

(** [StudySession.findOne({ userId, endTime: null })]. *)
Definition findActive (u : UserId) (db : Store)
  : option (SessionId * StudySession.t) :=
  snd <$> list_find (λ p, isActiveOf u p.2) (map_to_list (sessions db)).

(** [StudySession.findOne({ _id: sessionId, userId })]. *)
Definition findOwned (sid : SessionId) (u : UserId) (db : Store)
  : option StudySession.t :=
  match sessions db !! sid with
  | Some s => if decide (StudySession.userId s = u) then Some s else None
  | None => None
  end.

(** [StudySession.create({ userId, taskId, startTime })]: the other fields
    take the defaults of the schema, the id is new. *)
Definition create (u : UserId) (t : TaskId) (start : Z) (db : Store)
  : SessionId * StudySession.t * Store :=
  let id := fresh (dom (sessions db)) in
  let s := StudySession.mk u t start None (Some 0) 0 (Some false) "" start in
  (id, s, mkStore (<[id := s]> (sessions db)) (tasks db)).

(** [POST]. [auth] is what [getUserIdFromRequest] returns; [taskId] is
    [None] when the body carries no usable task id, in which case the
    schema's [required] validation makes [create] throw. *)
Definition POST (now : Z) (auth : option UserId) (taskId : option TaskId)
    (db : Store) : Response (SessionId * StudySession.t) * Store :=
  match auth with
  | None => (Failure 401 "Unauthorized", db)
  | Some userId =>
      match findActive userId db with
      | Some _ => (Failure 400 "You already have an active session", db)
      | None =>
          match taskId with
          | None => (Failure 500 "Failed to create session", db)
          | Some t =>
              let '(id, s, db') := create userId t now db in
              (Json 201 (id, s), db')
          end
      end
  end.

(** The two accesses to the store in [POST], each behind an [await]: the
    query for an active session, and the insertion with the answer that
    follows it. The clock is read for the insertion. *)
Definition POST_query (userId : UserId) (db : Store) : bool :=
  bool_decide (is_Some (findActive userId db)).
Definition POST_insert (now : Z) (userId : UserId) (t : TaskId)
    (db : Store) : Response (SessionId * StudySession.t) * Store :=
  let '(id, s, db') := create userId t now db in
  (Json 201 (id, s), db').

(** The body of a [PUT] request. *)
Record PutBody := mkPut {
  sessionId : SessionId;
  pomodorosCompleted : option Z;
  wasCompleted : option bool;
  notes : option string
}.

(** [if (notes)]: a string is truthy when it is not empty. *)
Definition truthy_notes (n : option string) : option string :=
  match n with
  | Some s => if decide (s = "") then None else Some s
  | None => None
  end.

(** [x || 0] on a number. *)
Definition or0 (x : Q) : Q := if Qeq_bool x 0 then 0%Q else x.

(** [totalMinutes / 60]. *)
Definition hoursOf (minutes : Z) : Q := (inject_Z minutes / 60)%Q.

(** The assignments to the session's fields in [PUT], before
    [session.save()]. *)
Definition finish (now : Z) (body : PutBody) (session : StudySession.t)
  : StudySession.t :=
  let endTime := now in
  let totalMinutes := (endTime - StudySession.startTime session) / 60000 in
  StudySession.mk
    (StudySession.userId session)
    (StudySession.taskId session)
    (StudySession.startTime session)
    (Some endTime)
    (pomodorosCompleted body)
    totalMinutes
    (wasCompleted body)
    (match truthy_notes (notes body) with
     | Some n => n
     | None => StudySession.notes session
     end)
    (StudySession.createdAt session).

(** [task.actualHours = (task.actualHours || 0) + totalMinutes / 60] *)
Definition addActual (totalMinutes : Z) (task : Task.t) : Task.t :=
  Task.mk (Task.userId task) (Task.title task) (Task.subject task)
    (Task.priority task) (Task.deadline task)
    (Task.estimatedHours task)
    (or0 (Task.actualHours task) + hoursOf totalMinutes)%Q
    (Task.status task).

(** [PUT]. The session is saved before the task is looked up; when
    [task.save()] then throws, because the task does not pass the
    validation of its schema, the [catch] answers 500 and the session stays
    saved. The session itself always passes: [PUT] assigns none of its
    required fields. *)
Definition PUT (now : Z) (auth : option UserId) (body : PutBody)
    (db : Store) : Response (SessionId * StudySession.t) * Store :=
  match auth with
  | None => (Failure 401 "Unauthorized", db)
  | Some userId =>
      match findOwned (sessionId body) userId db with
      | None => (Failure 404 "Session not found", db)
      | Some session =>
          let session' := finish now body session in
          (* await session.save() *)
          let db1 :=
            mkStore (<[sessionId body := session']> (sessions db))
                    (tasks db) in
          (* Task.findById(session.taskId) *)
          match tasks db1 !! StudySession.taskId session' with
          | Some task =>
              let task' :=
                addActual (StudySession.totalMinutes session') task in
              (* await task.save() *)
              if Task.validates task'
              then
                (Json 200 (sessionId body, session'),
                 mkStore (sessions db1)
                   (<[StudySession.taskId session' := task']> (tasks db1)))
              else (Failure 500 "Failed to update session", db1)
          | None => (Json 200 (sessionId body, session'), db1)
          end
      end
  end.

(** The task of the session [s] as [PUT] saves it, when there is one to
    save and it passes the validation. *)
Definition savedTask (now : Z) (s : StudySession.t) (db : Store)
  : option Task.t :=
  match tasks db !! StudySession.taskId s with
  | Some task =>
      let task' := addActual ((now - StudySession.startTime s) / 60000) task in
      if Task.validates task' then Some task' else None
  | None => None
  end.

(** What [PUT] answers once it has found the session [s]. *)
Definition answerPUT (now : Z) (body : PutBody) (s : StudySession.t)
    (db : Store) : Response (SessionId * StudySession.t) :=
  match tasks db !! StudySession.taskId s, savedTask now s db with
  | Some _, None => Failure 500 "Failed to update session"
  | _, _ => Json 200 (sessionId body, finish now body s)
  end.

(** The store that [PUT] leaves once it has found the session [s]. *)
Definition afterPUT (now : Z) (body : PutBody) (s : StudySession.t)
    (db : Store)
  : Store :=
  mkStore (<[sessionId body := finish now body s]> (sessions db))
    (match savedTask now s db with
     | Some task' => <[StudySession.taskId s := task']> (tasks db)
     | None => tasks db
     end).

(** The requests a client can send, each handled from its first line to
    its answer. *)
Inductive Request :=
  | Start (now : Z) (auth : option UserId) (taskId : option TaskId)
  | Complete (now : Z) (auth : option UserId) (body : PutBody).

Definition handle (r : Request) (db : Store) : Store :=
  match r with
  | Start now auth t => (POST now auth t db).2
  | Complete now auth b => (PUT now auth b db).2
  end.

(** The session collection holds at most one active session per user. *)
Definition oneActive (db : Store) : Prop :=
  ∀ i j s1 s2,
    sessions db !! i = Some s1 → sessions db !! j = Some s2 →
    StudySession.userId s1 = StudySession.userId s2 →
    StudySession.endTime s1 = None → StudySession.endTime s2 = None →
    i = j.

(** The stores that the application is in when it handles its requests one
    after the other: it starts without sessions, serves [POST] and [PUT]
    requests, and the task collection is edited by the task routes. *)
Inductive sequential : Store → Prop :=
  | seq_init ts : sequential (mkStore ∅ ts)
  | seq_handle r db : sequential db → sequential (handle r db)
  | seq_tasks ts db : sequential db → sequential (mkStore (sessions db) ts).

(** The server between two accesses to the store: the store, and the
    [POST] requests (user and task id) whose query has found no active
    session and whose insertion has not run yet. *)
Record Server := mkServer {
  store : Store;
  checked : list (UserId * TaskId)
}.

(** The server runs its handlers on one thread, and a handler gives way to
    the others at its [await]s. A [POST] can so be overtaken between its
    query and its insertion: [run_check] is a [POST] that has run its query
    and found no active session, [run_insert] is such a request running on,
    whatever has happened to the store since. *)
Inductive running : Server → Prop :=
  | run_init ts : running (mkServer (mkStore ∅ ts) [])
  | run_handle r sv :
      running sv → running (mkServer (handle r (store sv)) (checked sv))
  | run_tasks ts sv :
      running sv →
      running (mkServer (mkStore (sessions (store sv)) ts) (checked sv))
  | run_check u t sv :
      running sv → POST_query u (store sv) = false →
      running (mkServer (store sv) ((u, t) :: checked sv))
  | run_insert now u t l1 l2 sv :
      running sv → checked sv = l1 ++ (u, t) :: l2 →
      running (mkServer (POST_insert now u t (store sv)).2 (l1 ++ l2)).

(** The stores the application can be in. *)
Definition reachable (db : Store) : Prop :=
  ∃ waiting, running (mkServer db waiting).

End Lifecycle.

(** ** JavaScript numbers *)

(** IEEE 754 binary64 with rounding to nearest, ties to even: the numbers
    of JavaScript, with the operations that the analytics apply to hours. *)
Module Double.

Definition t : Type := spec_float.
Definition prec : Z := 53.
Definition emax : Z := 1024.

Definition zero : t := S754_zero false.

(** The number that an integer converts to. *)
Definition ofZ (z : Z) : t := binary_normalize prec emax z 0 false.

Definition add (x y : t) : t := SFadd prec emax x y.
Definition div (x y : t) : t := SFdiv prec emax x y.

(** [x < y], [x <= y] and [x == y]; each is false when an operand is NaN. *)
Definition lt (x y : t) : bool := SFltb x y.
Definition le (x y : t) : bool := SFleb x y.
Definition eqb (x y : t) : bool := SFeqb x y.

(** [x || 0]: a number is falsy when it is 0, -0 or NaN. *)
Definition truthy (x : t) : bool :=
  match x with
  | S754_zero _ | S754_nan => false
  | _ => true
  end.
Definition or0 (x : t) : t := if truthy x then x else zero.

(** The rational that a finite number stands for, in lowest terms. *)
Definition value (x : t) : option Q :=
  match x with
  | S754_zero _ => Some 0%Q
  | S754_finite s m e =>
      let z := if s then Z.neg m else Z.pos m in
      Some (Qred (match e with
                  | Z0 => inject_Z z
                  | Z.pos p => inject_Z (z * 2 ^ Z.pos p)
                  | Z.neg p => z # (2 ^ p)%positive
                  end))
  | _ => None
  end.

End Double.

(** ** The time zone of the server *)

(** A time zone, as [Date] uses it: the offset of local time from UTC, in
    milliseconds, at a UTC instant, and the offset that a local time is
    read with (for a local time that a change of offset repeats or skips,
    the offset before the change). *)
Module Zone.

Record t := mk {
  utcOffset : Z → Z;
  localOffset : Z → Z
}.

(** A zone without daylight saving: one offset throughout. *)
Definition fixed (c : Z) : t := mk (λ _, c) (λ _, c).

(** [LocalTime(t)] and [UTC(t)] of the language definition. *)
Definition localTime (zone : t) (d : Z) : Z := d + utcOffset zone d.
Definition toUTC (zone : t) (w : Z) : Z := w - localOffset zone w.


End Zone.

(** ** JavaScript objects used as dictionaries *)

(** An object with string keys: its own properties in creation order, and
    the properties that it inherits from [Object.prototype]. *)
Module JsObject.

Definition t (V : Type) := list (string * V).

(** The own property [k], as [hasOwnProperty] and [Object.entries] see
    it. *)
Fixpoint get {V} (k : string) (o : t V) : option V :=
  match o with
  | [] => None
  | (k', v) :: o' => if decide (k' = k) then Some v else get k o'
  end.

(** Creates or overwrites the own property [k]. *)
Fixpoint set {V} (k : string) (v : V) (o : t V) : t V :=
  match o with
  | [] => [(k, v)]
  | (k', v') :: o' =>
      if decide (k' = k) then (k, v) :: o' else (k', v') :: set k v o'
  end.

(** The names of the properties of [Object.prototype]: functions, and the
    accessor [__proto__], whose getter returns [Object.prototype] itself.
    All of them are truthy. *)
Definition prototypeKeys : list string :=
  ["constructor"; "__defineGetter__"; "__defineSetter__"; "hasOwnProperty";
   "__lookupGetter__"; "__lookupSetter__"; "isPrototypeOf";
   "propertyIsEnumerable"; "toString"; "valueOf"; "__proto__";
   "toLocaleString"].
Definition inherited (k : string) : Prop := k ∈ prototypeKeys.

#[global] Instance inherited_dec k : Decision (inherited k).
Proof. unfold inherited. apply _. Defined.

(** What [o[k]] evaluates to: an own property, else an inherited member,
    else [undefined]. *)
Inductive Lookup (V : Type) : Type :=
  | Own (v : V)
  | Inherited
  | Undefined.
Arguments Own {V} v.
Arguments Inherited {V}.
Arguments Undefined {V}.

Definition read {V} (k : string) (o : t V) : Lookup V :=
  match get k o with
  | Some v => Own v
  | None => if decide (inherited k) then Inherited else Undefined
  end.

(** [o[k] = v] for a number or a string [v]. Under the key [__proto__] the
    inherited setter runs, which ignores a value that is not an object. *)
Definition assign {V} (k : string) (v : V) (o : t V) : t V :=
  if decide (k = "__proto__") then o else set k v o.

Fixpoint digits (s : string) (acc : N) : option N :=
  match s with
  | EmptyString => Some acc
  | String c s' =>
      let n := Ascii.N_of_ascii c in
      if decide (48 ≤ n ∧ n ≤ 57)%N
      then digits s' (10 * acc + (n - 48))%N
      else None
  end.

(** A key is an array index when it is the canonical decimal numeral of
    an integer below 2^32 - 1. *)
Definition arrayIndex (k : string) : option N :=
  match digits k 0 with
  | Some n =>
      if decide (pretty n = k ∧ (n < 4294967295)%N) then Some n else None
  | None => None
  end.

Fixpoint insertIndex {V} (n : N) (e : string * V)
    (l : list (N * (string * V))) : list (N * (string * V)) :=
  match l with
  | [] => [(n, e)]
  | (m, e') :: l' =>
      if decide (n < m)%N then (n, e) :: l
      else (m, e') :: insertIndex n e l'
  end.

(** [Object.entries(o)]: array-index keys in ascending numeric order,
    then the other keys in creation order. *)
Definition entries {V} (o : t V) : list (string * V) :=
  let indexed :=
    foldr (λ e acc,
             match arrayIndex e.1 with
             | Some n => insertIndex n e acc
             | None => acc
             end) [] o in
  (snd <$> indexed) ++ filter (λ e, arrayIndex e.1 = None) o.

End JsObject.

(** An object whose keys are hours of the day. Such keys are array
    indices, so the object enumerates them in ascending numeric order
    whatever the order of creation: the list is kept sorted by key. No
    such key is inherited. *)
Module HourObject.

Definition t := list (Z * Double.t).

Fixpoint get (k : Z) (o : t) : option Double.t :=
  match o with
  | [] => None
  | (k', v) :: o' => if decide (k' = k) then Some v else get k o'
  end.

Fixpoint set (k : Z) (v : Double.t) (o : t) : t :=
  match o with
  | [] => [(k, v)]
  | (k', v') :: o' =>
      if decide (k = k') then (k, v) :: o'
      else if decide (k < k') then (k, v) :: o
      else (k', v') :: set k v o'
  end.

(** The keys go up strictly along the list. *)
Definition ascending (o : t) : Prop :=
  StronglySorted (λ a b, a.1 < b.1) o.

(** [Object.entries(o)], with each key already through [parseInt]. *)
Definition entries (o : t) : list (Z * Double.t) := o.

End HourObject.

(** ** Analytics ([GET] of the analytics route, [src/unnamed/part_002]) *)

Module Analytics.

(** A session after [.populate('taskId')]: the task document, or [null]
    when the task is gone. *)
Definition Populated : Type := StudySession.t * option Task.t.

Definition startTime (s : Populated) : Z := StudySession.startTime s.1.
Definition totalMinutes (s : Populated) : Z := StudySession.totalMinutes s.1.

(** A document read from the collection carries the schema default (0)
    where the field is absent. *)
Definition pomodorosCompleted (s : Populated) : Z :=
  default 0 (StudySession.pomodorosCompleted s.1).

(** [session.totalMinutes / 60] *)
Definition hoursOf (minutes : Z) : Double.t :=
  Double.div (Double.ofZ minutes) (Double.ofZ 60).

(** [a > b] and [Math.max(a, b)] on the hours of tasks. *)
Definition gt (a b : Q) : bool := negb (Qle_bool a b).
Definition Math_max (a b : Q) : Q := if Qle_bool a b then b else a.

(** [parseFloat(x.toFixed(1))] for the value [x] of a number: the nearest
    multiple of 1/10, a tie going away from zero. *)
Definition toFixed1 (x : Q) : Q :=
  let n := Qfloor (Qabs x * 10 + (1 # 2))%Q in
  if gt 0 x then (inject_Z (- n) / 10)%Q else (inject_Z n / 10)%Q.

(** Dates. [isoDay] is [toISOString().split('T')[0]], [minusDays] is
    [setDate(getDate() - k)]: the day of the month is a field of local
    time, and the new local time is read back in the server's zone.
    [getHours] is the hour of local time. *)
Definition isoDay (d : Z) : Z := d / 86400000.
Definition minusDays (zone : Zone.t) (d : Z) (k : Z) : Z :=
  Zone.toUTC zone (Zone.localTime zone d - k * 86400000).
Definition getHours (zone : Zone.t) (d : Z) : Z :=
  (Zone.localTime zone d / 3600000) `mod` 24.

Record TaskAccuracy := mkTaskAccuracy {
  ta_taskId : TaskId;
  ta_title : string;
  ta_subject : string;
  estimated : Q;
  actual : Q;
  difference : Q;
  accuracyPercent : Q
}.

Record SubjectTotals := mkSubjectTotals {
  st_estimated : Q;
  st_actual : Q;
  st_count : nat
}.

(** A value of [subjectData]: a number of hours, or, under a key that the
    object inherits, the string that [+] makes of the inherited member and
    of the numbers added to it. *)
Inductive Cell :=
  | Hours (h : Double.t)
  | Text (added : list Double.t).

(** The summary. A number that is not finite is [null] in the JSON body:
    [None]. *)
Record Summary := mkSummary {
  s_totalPomodoros : Z;
  s_totalHoursStudied : option Q;
  s_overallAccuracy : Q;
  s_currentStreak : nat;
  s_sessionsCount : nat
}.

Record Result := mkResult {
  r_summary : Summary;
  r_taskAccuracy : list TaskAccuracy;
  r_subjectData : JsObject.t Cell;
  r_hourlyData : HourObject.t;
  r_dailyStudyTime : gmap Z Double.t;
  r_mostProductiveHour : Z;
  r_insights : list string
}.

Section Handler.

Variable now : Z.
Variable zone : Zone.t.
Variable sessions : list Populated.
Variable tasks : list (TaskId * Task.t).

(* Filter sessions from last 7 days for weekly stats *)
Definition sevenDaysAgo : Z := now - 7 * 24 * 60 * 60 * 1000.
Definition recentSessions : list Populated :=
  filter (λ s, sevenDaysAgo ≤ startTime s) sessions.

(* Calculate total stats *)
Definition totalPomodoros : Z :=
  foldl (λ sum s, sum + pomodorosCompleted s) 0 sessions.
Definition weeklyPomodoros : Z :=
  foldl (λ sum s, sum + pomodorosCompleted s) 0 recentSessions.
Definition totalMinutesStudied : Double.t :=
  foldl (λ sum s, Double.add sum (Double.ofZ (totalMinutes s)))
    Double.zero sessions.
Definition totalHoursStudied : Double.t :=
  Double.div totalMinutesStudied (Double.ofZ 60).

(* Calculate estimated vs actual by task *)
Definition taskAccuracyOf (t : TaskId * Task.t) : TaskAccuracy :=
  let estimated := Task.estimatedHours t.2 in
  let actual := Task.actualHours t.2 in
  let difference := (actual - estimated)%Q in
  let accuracyPercent :=
    if gt estimated 0
    then (((estimated - Qabs difference) / estimated) * 100)%Q
    else 0%Q in
  mkTaskAccuracy t.1 (Task.title t.2) (Task.subject t.2)
    estimated actual difference (Math_max 0 accuracyPercent).
Definition taskAccuracy : list TaskAccuracy := taskAccuracyOf <$> tasks.

(* Overall accuracy *)
Definition totalEstimated : Q :=
  foldl (λ sum t, sum + Task.estimatedHours t.2)%Q 0%Q tasks.
Definition totalActual : Q :=
  foldl (λ sum t, sum + Task.actualHours t.2)%Q 0%Q tasks.
Definition overallAccuracy : Q :=
  if gt totalEstimated 0
  then (((totalEstimated - Qabs (totalActual - totalEstimated))
         / totalEstimated) * 100)%Q
  else 0%Q.

(* Study time by subject *)
Definition addSubject (subjectData : JsObject.t Cell) (session : Populated)
  : JsObject.t Cell :=
  match session.2 with
  | Some task =>
      let subject := Task.subject task in
      let hours := hoursOf (totalMinutes session) in
      JsObject.assign subject
        (match JsObject.read subject subjectData with
         | JsObject.Own (Hours v) => Hours (Double.add (Double.or0 v) hours)
         | JsObject.Own (Text added) => Text (added ++ [hours])
         | JsObject.Inherited => Text [hours]
         | JsObject.Undefined => Hours (Double.add Double.zero hours)
         end)
        subjectData
  | None => subjectData
  end.
Definition subjectData : JsObject.t Cell := foldl addSubject [] sessions.

(* Study time by hour of day *)
Definition addHour (hourlyData : HourObject.t) (session : Populated)
  : HourObject.t :=
  let hour := getHours zone (startTime session) in
  HourObject.set hour
    (Double.add
       (Double.or0 (default Double.zero (HourObject.get hour hourlyData)))
       (hoursOf (totalMinutes session)))
    hourlyData.
Definition hourlyData : HourObject.t := foldl addHour [] sessions.

(* Find most productive hour *)
Definition pickHour (best : Z * Double.t) (entry : Z * Double.t)
  : Z * Double.t :=
  let '(mostProductiveHour, maxHours) := best in
  let '(hour, hours) := entry in
  if Double.lt maxHours hours then (hour, hours)
  else (mostProductiveHour, maxHours).
Definition mostProductive : Z * Double.t :=
  foldl pickHour (0, Double.zero) (HourObject.entries hourlyData).
Definition mostProductiveHour : Z := mostProductive.1.

(* Study sessions by day (last 7 days) *)
Definition last7Days : list Z :=
  (λ i, isoDay (minusDays zone now (6 - i))) <$> seqZ 0 7.
Definition addDay (dailyStudyTime : gmap Z Double.t) (session : Populated)
  : gmap Z Double.t :=
  let day := isoDay (startTime session) in
  match dailyStudyTime !! day with
  | Some v => <[day := Double.add v (hoursOf (totalMinutes session))]>
                dailyStudyTime
  | None => dailyStudyTime
  end.
Definition dailyStudyTime : gmap Z Double.t :=
  foldl addDay
    (foldl (λ o day, <[day := Double.zero]> o) (∅ : gmap Z Double.t)
       last7Days)
    sessions.

(* Calculate streak (consecutive days with at least 1 session) *)
Definition today : Z := isoDay now.
Definition hasSessions (dayStr : Z) : bool :=
  existsb (λ s, bool_decide (isoDay (startTime s) = dayStr)) sessions.

(** The loop [for (let i = 0; i < 30; i++)], entered at index [i] with
    [n] iterations left. *)
Fixpoint streakLoop (n : nat) (i : Z) (tempStreak : nat) : nat :=
  match n with
  | O => tempStreak
  | S n' =>
      let dayStr := isoDay (minusDays zone now i) in
      if hasSessions dayStr then streakLoop n' (i + 1) (S tempStreak)
      else if decide (dayStr = today)
           then streakLoop n' (i + 1) tempStreak      (* continue *)
           else tempStreak                            (* break *)
  end.
Definition currentStreak : nat := streakLoop 30 0 0.

(* AI Insights *)
Definition insightPomodoros : list string :=
  if bool_decide (weeklyPomodoros > 0)
  then ["You've completed " +:+ pretty weeklyPomodoros
        +:+ " Pomodoros this week! ðŸŽ‰"]
  else [].

Definition insightAccuracy : list string :=
  if gt 50 overallAccuracy
  then ["âš ï¸ Your time estimates are often off. Try adding 30% buffer time to your estimates."]
  else if gt overallAccuracy 80
  then ["ðŸŽ¯ Great job! Your time estimates are very accurate."]
  else [].

(** [mostProductiveHour || mostProductiveHour === 0] *)
Definition insightPeak : list string :=
  if negb (bool_decide (mostProductiveHour = 0))
     || bool_decide (mostProductiveHour = 0)
  then
    let meridiem :=
      if bool_decide (mostProductiveHour >= 12) then "PM" else "AM" in
    let hour12 := ((mostProductiveHour + 11) `rem` 12) + 1 in
    let hourFormatted := pretty hour12 +:+ " " +:+ meridiem in
    ["ðŸ“Š Your peak productivity is around " +:+ hourFormatted
     +:+ ". Schedule important tasks then!"]
  else [].

Definition insightStreak : list string :=
  if bool_decide (0 < currentStreak)%nat
  then ["ðŸ”¥ You're on a " +:+ pretty currentStreak
        +:+ "-day study streak!"]
  else [].

(* Find subjects where actual > estimated consistently *)
(** The step of the [reduce]. Under a key that [acc] inherits, [acc[subj]]
    is the inherited member: it is truthy, no own property is created, and
    the three updates go to that member, not to [acc]. The task's subject
    is a string, so the default ['Unknown'] is not taken. *)
Definition addTotals (acc : JsObject.t SubjectTotals)
    (task : TaskId * Task.t) : JsObject.t SubjectTotals :=
  let subj := Task.subject task.2 in
  let update cur :=
    mkSubjectTotals
      (st_estimated cur + Task.estimatedHours task.2)%Q
      (st_actual cur + Task.actualHours task.2)%Q
      (S (st_count cur)) in
  match JsObject.read subj acc with
  | JsObject.Own cur => JsObject.set subj (update cur) acc
  | JsObject.Undefined =>
      JsObject.set subj (update (mkSubjectTotals 0 0 0)) acc
  | JsObject.Inherited => acc
  end.
Definition subjectTotals : JsObject.t SubjectTotals :=
  foldl addTotals [] tasks.
Definition underestimatedSubjects : list (string * SubjectTotals) :=
  filter (λ e, gt (st_actual e.2) (st_estimated e.2 * (12 # 10))%Q = true
               ∧ (2 ≤ st_count e.2)%nat)
         (JsObject.entries subjectTotals).
Definition insightSubjects : list string :=
  if bool_decide (0 < length underestimatedSubjects)%nat
  then
    let subjectNames := String.concat ", " (fst <$> underestimatedSubjects) in
    ["ðŸ’¡ You consistently underestimate " +:+ subjectNames
     +:+ " tasks. Consider adding more time."]
  else [].

Definition insights : list string :=
  insightPomodoros ++ insightAccuracy ++ insightPeak ++ insightStreak
  ++ insightSubjects.

(** The body of the response. *)
Definition analytics : Result :=
  mkResult
    (mkSummary totalPomodoros (toFixed1 <$> Double.value totalHoursStudied)
       (toFixed1 overallAccuracy) currentStreak (length sessions))
    taskAccuracy subjectData hourlyData dailyStudyTime
    mostProductiveHour insights.

End Handler.

(** [StudySession.find({ userId, endTime: { $ne: null } })
      .populate('taskId')] *)
Definition findCompleted (u : UserId) (db : Store) : list Populated :=
  (λ p, (p.2, tasks db !! StudySession.taskId p.2))
    <$> filter (λ p, StudySession.userId p.2 = u
                     ∧ StudySession.endTime p.2 ≠ None)
               (map_to_list (sessions db)).

(** [Task.find({ userId })] *)
Definition findTasks (u : UserId) (db : Store) : list (TaskId * Task.t) :=
  filter (λ p, Task.userId p.2 = u) (map_to_list (tasks db)).

(** [GET]. *)
Definition GET (now : Z) (zone : Zone.t) (auth : option UserId) (db : Store)
  : Response Result :=
  match auth with
  | None => Failure 401 "Unauthorized"
  | Some userId =>
      Json 200
        (analytics now zone (findCompleted userId db) (findTasks userId db))
  end.

End Analytics.

(** ** The specification's formulas *)

Module Spec.

(** Accuracy percent, as the specification words it:
    [max(0, ((estimated - |difference|) / estimated) * 100)] when
    [estimated > 0], else [0], with [difference = actual - estimated]. *)
Definition accuracyPercent (estimated actual : Q) : Q :=
  let difference := (actual - estimated)%Q in
  if Analytics.gt estimated 0
  then Analytics.Math_max 0
         (((estimated - Qabs difference) / estimated) * 100)%Q
  else 0%Q.

(** A calendar day counts when a session of the list started on it. *)
Definition dayHasSession (sessions : list Analytics.Populated) (day : Z)
  : Prop :=
  ∃ s, s ∈ sessions ∧ StudySession.startTime s.1 / 86400000 = day.

#[global] Instance dayHasSession_dec sessions day :
  Decision (dayHasSession sessions day).
Proof.
  refine (cast_if (decide (Exists (λ s : Analytics.Populated,
                                     StudySession.startTime s.1 / 86400000
                                     = day) sessions)));
    unfold dayHasSession; rewrite <- Exists_exists; assumption.
Defined.

(** The streak as the specification words it: the days are scanned
    backwards from [day], [left] of them at most; a day with a session
    counts, and the first day without one ends the scan, unless it is
    today. *)
Fixpoint streakFrom (sessions : list Analytics.Populated) (today : Z)
    (left : nat) (day : Z) : nat :=
  match left with
  | O => O
  | S left' =>
      if decide (dayHasSession sessions day)
      then S (streakFrom sessions today left' (day - 1))
      else if decide (day = today)
           then streakFrom sessions today left' (day - 1)
           else O
  end.

(** [minutes / 60], as a number of the language. *)
Definition sixtieth (minutes : Z) : Double.t :=
  SFdiv 53 1024 (binary_normalize 53 1024 minutes 0 false)
    (binary_normalize 53 1024 60 0 false).

(** The hours of the sessions that started on the UTC day [day], added to
    0 in the order of the list. *)
Definition dayTotal (sessions : list Analytics.Populated) (day : Z)
  : Double.t :=
  foldl (λ acc s, SFadd 53 1024 acc (sixtieth (StudySession.totalMinutes s.1)))
    (S754_zero false)
    (filter (λ s, StudySession.startTime s.1 / 86400000 = day) sessions).

(** The sum that [(x || 0) + h] builds when it is applied to the hours
    [hs] in turn: a running sum that is not a number counts as 0. *)
Definition runningSum (hs : list Double.t) : Double.t :=
  foldl (λ acc h, SFadd 53 1024
                    (match acc with
                     | S754_nan | S754_zero _ => S754_zero false
                     | _ => acc
                     end) h)
    (S754_zero false) hs.

(** The hours of the sessions that started in hour [h] of the day, in the
    server's zone. *)
Definition hourTotal (zone : Zone.t) (sessions : list Analytics.Populated)
    (h : Z) : Double.t :=
  runningSum
    ((λ s, sixtieth (StudySession.totalMinutes s.1))
       <$> filter (λ s, ((StudySession.startTime s.1
                          + Zone.utcOffset zone (StudySession.startTime s.1))
                         / 3600000) `mod` 24 = h)
                  sessions).

(** The hours of the sessions whose task is there and has subject [k]. *)
Definition subjectHours (sessions : list Analytics.Populated) (k : string)
  : list Double.t :=
  (λ s, sixtieth (StudySession.totalMinutes s.1))
    <$> filter (λ s, Task.subject <$> s.2 = Some k) sessions.

End Spec.

(** ** Sample stores *)

Module Examples.

Definition day : Z := 86400000.
Definition hour : Z := 3600000.

(** User 1 owns task 7. *)
Definition essay : Task.t :=
  Task.mk 1%nat "Essay" "History" "medium" (Some (30 * day)) 2 0 "pending".
Definition db0 : Store := mkStore ∅ {[ 7%nat := essay ]}.


(** User 1 starts a session on task 7 at 00:02:00.000 of day 0; it gets
    id 0. *)
Definition db1 : Store :=
  (Lifecycle.POST 120000 (Some 1%nat) (Some 7%nat) db0).2.

Definition started : StudySession.t :=
  StudySession.mk 1%nat 7%nat 120000 None (Some 0) 0 (Some false) ""
    120000.

(** The same session, after the task was deleted, and after the task
    lost its title. *)
Definition db1_orphan : Store := mkStore (sessions db1) ∅.

(** The request the timer page sends when the user presses "complete"
    after one pomodoro: no notes. The same with a note. *)
Definition done1 : Lifecycle.PutBody :=
  Lifecycle.mkPut 0%nat (Some 1) (Some true) None.
Definition done1_noted : Lifecycle.PutBody :=
  Lifecycle.mkPut 0%nat (Some 1) (Some true) (Some "chapter 3").

(** The session completed 10 minutes after its start. *)
Definition db2 : Store :=
  (Lifecycle.PUT 720000 (Some 1%nat) done1 db1).2.

(** Two [POST] requests of user 1 that both run their query on [db0]
    before either inserts. *)
Definition raced : Store :=
  (Lifecycle.POST_insert 120001 1%nat 7%nat
     (Lifecycle.POST_insert 120000 1%nat 7%nat db0).2).2.

(** Completed sessions for the analytics: one that started at [start]
    and lasted [minutes]. *)
Definition session_at (start minutes : Z) : Analytics.Populated :=
  (StudySession.mk 1%nat 7%nat start (Some (start + minutes * 60000))
     (Some 1) minutes (Some true) "" start,
   Some essay).

(** A server on UTC. *)
Definition utc : Zone.t := Zone.fixed 0.

(** Noon (UTC) of day 100. *)
Definition noon : Z := 100 * day + 12 * hour.

(** Sessions today, yesterday and three days ago. *)
Definition threeDays : list Analytics.Populated :=
  [session_at (100 * day + 9 * hour) 25;
   session_at (99 * day + 20 * hour) 50;
   session_at (97 * day + 8 * hour) 25].

(** An hour at 15:00, then an hour at 09:00. *)
Definition afternoonFirst : list Analytics.Populated :=
  [session_at (100 * day + 15 * hour) 60;
   session_at (100 * day + 9 * hour) 60].

(** A session at 15:00 that was stopped within its first minute. *)
Definition stoppedAtOnce : list Analytics.Populated :=
  [session_at (100 * day + 15 * hour) 0].

(** Thirty-six minutes in the hour of 09:00 and thirty-six in the hour of
    15:00, as sessions of 6, 12 and 18 minutes; and the same sessions with
    the order of the lengths exchanged between the two hours. *)
Definition thirtySix : list Analytics.Populated :=
  [session_at (100 * day + 9 * hour) 6;
   session_at (100 * day + 9 * hour + 10 * 60000) 12;
   session_at (100 * day + 9 * hour + 30 * 60000) 18;
   session_at (100 * day + 15 * hour) 18;
   session_at (100 * day + 15 * hour + 20 * 60000) 12;
   session_at (100 * day + 15 * hour + 40 * 60000) 6].
Definition thirtySix' : list Analytics.Populated :=
  [session_at (100 * day + 9 * hour) 18;
   session_at (100 * day + 9 * hour + 20 * 60000) 12;
   session_at (100 * day + 9 * hour + 40 * 60000) 6;
   session_at (100 * day + 15 * hour) 6;
   session_at (100 * day + 15 * hour + 10 * 60000) 12;
   session_at (100 * day + 15 * hour + 30 * 60000) 18].

(** A task estimated at 10 hours that took 25. *)
Definition overrun : list (TaskId * Task.t) :=
  [(7%nat,
    Task.mk 1%nat "Essay" "History" "medium" (Some (30 * day)) 10 25
      "pending")].

(** A server on the time of New York in 2025: five hours behind UTC, and
    four hours behind from 9 March, 07:00 UTC, to 2 November, 06:00 UTC. *)
Definition spring : Z := 1741503600000.
Definition autumn : Z := 1762063200000.
Definition newYork : Zone.t :=
  Zone.mk
    (λ d, if decide (spring ≤ d < autumn) then -4 * hour else -5 * hour)
    (λ w, if decide (spring - 4 * hour ≤ w < autumn - 4 * hour)
          then -4 * hour else -5 * hour).

(** 3 November 2025, 00:30 UTC: the evening of 2 November in New York,
    the day on which the clocks went back. The UTC day is 20395. *)
Definition afterAutumn : Z := 1762129800000.

(** Sessions of that evening (00:05 UTC, the UTC day 20395), of the UTC
    day before and of the UTC day three days before; none of the UTC day
    two days before. *)
Definition autumnWeek : list Analytics.Populated :=
  [session_at (20395 * day + 5 * 60000) 20;
   session_at (20394 * day + 20 * hour) 50;
   session_at (20392 * day + 8 * hour) 25].

(** 9 March 2025, 23:30 UTC: the evening of the day on which the clocks
    went forward in New York. The UTC day is 20156. *)
Definition afterSpring : Z := 1741563000000.



(** Sessions of 15 June 2025 (UTC day 20254): 90 minutes from 09:10 UTC
    and 45 minutes from 09:50 UTC, which is the hour of 05:00 in New York;
    and half an hour two weeks earlier. *)
Definition june : list Analytics.Populated :=
  [session_at (20254 * day + 9 * hour + 10 * 60000) 90;
   session_at (20240 * day + 18 * hour) 30;
   session_at (20254 * day + 9 * hour + 50 * 60000) 45].

(** A task whose subject is the name of a member of every object, and two
    sessions on it. *)
Definition classes : Task.t :=
  Task.mk 1%nat "Classes" "constructor" "high" (Some (30 * day)) 3 0
    "pending".
Definition onClasses : list Analytics.Populated :=
  [(StudySession.mk 1%nat 8%nat noon (Some (noon + 30 * 60000)) (Some 1) 30
      (Some true) "" noon, Some classes);
   session_at (100 * day + 13 * hour) 45;
   (StudySession.mk 1%nat 8%nat (noon + 2 * hour)
      (Some (noon + 3 * hour)) (Some 2) 60 (Some true) "" (noon + 2 * hour),
    Some classes)].

End Examples.

(** ** Listing the sessions ([GET] of [src/app/api/sessions/route.ts]) *)

Module SessionList.

(** A listed session: its id, the document, and the populated task. *)
Definition Listed : Type := SessionId * StudySession.t * option Task.t.

Definition createdAt (x : Listed) : Z := StudySession.createdAt x.1.2.

(** The order of [.sort({ createdAt: -1 })]. *)
Definition newerFirst (x y : Listed) : Prop := createdAt y ≤ createdAt x.

#[global] Instance newerFirst_dec x y : Decision (newerFirst x y).
Proof. unfold newerFirst. apply _. Defined.

(** [StudySession.find({ userId }).populate('taskId')] *)
Definition find (u : UserId) (db : Store) : list Listed :=
  (λ p, (p, tasks db !! StudySession.taskId p.2))
    <$> filter (λ p, StudySession.userId p.2 = u)
               (map_to_list (sessions db)).

(** [GET]. *)
Definition GET (auth : option UserId) (db : Store) : Response (list Listed) :=
  match auth with
  | None => Failure 401 "Unauthorized"
  | Some userId => Json 200 (merge_sort newerFirst (find userId db))
  end.

End SessionList.

(** ** Deleting a task ([DELETE] of [src/app/api/tasks/route.ts]) *)

Module Tasks.

(** [Task.findOneAndDelete({ _id: id, userId })]; [id] is [None] when the
    URL has no [id] parameter, and then no document matches. *)
Definition findOneAndDelete (id : option TaskId) (u : UserId) (db : Store)
  : option (TaskId * Store) :=
  match id with
  | None => None
  | Some i =>
      match tasks db !! i with
      | Some task =>
          if decide (Task.userId task = u)
          then Some (i, mkStore (sessions db) (delete i (tasks db)))
          else None
      | None => None
      end
  end.

(** [DELETE]. *)
Definition DELETE (auth : option UserId) (id : option TaskId) (db : Store)
  : Response string * Store :=
  match auth with
  | None => (Failure 401 "Unauthorized", db)
  | Some userId =>
      match findOneAndDelete id userId db with
      | None => (Failure 404 "Task not found", db)
      | Some (_, db') => (Json 200 "Task deleted successfully", db')
      end
  end.

End Tasks.

(** ** The timer ([PomodoroTimer], [src/unnamed/part_004]) *)

Module Timer.

(** The state of the component that the countdown uses. *)
Record State := mkState {
  timeLeft : Z;
  isRunning : bool;
  isPaused : bool;
  isBreak : bool;
  pomodorosCompleted : Z
}.

(** [useState] initial values. *)
Definition initial : State := mkState (25 * 60) false false false 0.

(** [handleTimerComplete] *)
Definition handleTimerComplete (st : State) : State :=
  if negb (isBreak st) then
    let newPomodoros := pomodorosCompleted st + 1 in
    let breakTime :=
      if bool_decide (newPomodoros `rem` 4 = 0) then 15 * 60 else 5 * 60 in
    mkState breakTime false (isPaused st) true newPomodoros
  else
    mkState (25 * 60) false (isPaused st) false (pomodorosCompleted st).

(** The local part of [handleStart], and [handlePause]. *)
Definition handleStart (st : State) : State :=
  mkState (timeLeft st) true false (isBreak st) (pomodorosCompleted st).
Definition handlePause (st : State) : State :=
  mkState (timeLeft st) false true (isBreak st) (pomodorosCompleted st).

(** One run of the countdown effect ([useEffect] on [isRunning] and
    [timeLeft]): a running timer with time left loses a second, as the
    interval callback does; run with no time left, the effect calls
    [handleTimerComplete]. *)
Definition tick (st : State) : State :=
  if isRunning st && bool_decide (timeLeft st > 0) then
    mkState (timeLeft st - 1) (isRunning st) (isPaused st) (isBreak st)
      (pomodorosCompleted st)
  else if bool_decide (timeLeft st = 0) then handleTimerComplete st
  else st.

(** What the user and the clock can do to the timer. *)
Inductive Event := Start | Pause | Tick.

Definition step (st : State) (e : Event) : State :=
  match e with
  | Start => handleStart st
  | Pause => handlePause st
  | Tick => tick st
  end.

(** The length in seconds of the interval that the progress bar measures:
    the denominators of [progress]. *)
Definition duration (st : State) : Z :=
  if isBreak st
  then (if bool_decide (pomodorosCompleted st `rem` 4 = 0)
        then 15 * 60 else 5 * 60)
  else 25 * 60.

(** [progress] *)
Definition progress (st : State) : Q :=
  let breakLen :=
    if bool_decide (pomodorosCompleted st `rem` 4 = 0)
    then 15 * 60 else 5 * 60 in
  if isBreak st
  then (inject_Z (breakLen - timeLeft st) / inject_Z breakLen * 100)%Q
  else (inject_Z (25 * 60 - timeLeft st) / inject_Z (25 * 60) * 100)%Q.

(** [s.padStart(2, '0')] *)
Definition padStart2 (s : string) : string :=
  String.concat "" (replicate (2 - String.length s) "0") +:+ s.

(** [formatTime] *)
Definition formatTime (seconds : Z) : string :=
  let mins := seconds / 60 in
  let secs := seconds `rem` 60 in
  padStart2 (pretty mins) +:+ ":" +:+ padStart2 (pretty secs).

End Timer.

(** ** Measures used to state the properties *)

Module Measure.

(** A timer whose countdown is within its interval. *)
Definition timerSound (st : Timer.State) : Prop :=
  0 ≤ Timer.timeLeft st ≤ Timer.duration st
  ∧ 0 ≤ Timer.pomodorosCompleted st.

(** The timer after a sequence of events. *)
Definition timerRun (st : Timer.State) (events : list Timer.Event)
  : Timer.State :=
  foldl Timer.step st events.

(** A number below 100 as two decimal digits. *)
Definition twoDigits (n : Z) : string :=
  String (Ascii.ascii_of_N (48 + Z.to_N (n / 10)))
    (String (Ascii.ascii_of_N (48 + Z.to_N (n `mod` 10))) "").

(** An hour of the day on the 12-hour clock. *)
Definition clock12 (h : Z) : Z :=
  if decide (h = 0) then 12 else if decide (h ≤ 12) then h else h - 12.

(** The note on the peak hour [h], on the 12-hour clock. *)
Definition peakNote (h : Z) : string :=
  "ðŸ“Š Your peak productivity is around "
  +:+ (pretty (clock12 h) +:+ " "
       +:+ (if decide (h < 12) then "AM" else "PM"))
  +:+ ". Schedule important tasks then!".

Definition accuracyWarning : string :=
  "âš ï¸ Your time estimates are often off. Try adding 30% buffer time to your estimates.".
Definition accuracyPraise : string :=
  "ðŸŽ¯ Great job! Your time estimates are very accurate.".

(** The state of a session that no [PUT] has touched, and of one that a
    [PUT] has completed. *)
Definition fresh_session (s : StudySession.t) : Prop :=
  StudySession.endTime s = None
  ∧ StudySession.totalMinutes s = 0
  ∧ StudySession.pomodorosCompleted s = Some 0
  ∧ StudySession.wasCompleted s = Some false
  ∧ StudySession.notes s = "".
Definition finished_session (s : StudySession.t) : Prop :=
  ∃ e, StudySession.endTime s = Some e
       ∧ StudySession.totalMinutes s = (e - StudySession.startTime s) / 60000.

(** Every session of the store is in one of these two states. *)
Definition wellFormed (db : Store) : Prop :=
  ∀ i s, sessions db !! i = Some s → fresh_session s ∨ finished_session s.

(** The store [db'] has every session of [db], with the same owner, task
    and start time. *)
Definition keepsSessions (db db' : Store) : Prop :=
  ∀ i s, sessions db !! i = Some s →
    ∃ s', sessions db' !! i = Some s'
          ∧ StudySession.userId s' = StudySession.userId s
          ∧ StudySession.taskId s' = StudySession.taskId s
          ∧ StudySession.startTime s' = StudySession.startTime s
          ∧ StudySession.createdAt s' = StudySession.createdAt s.

End Measure.

Import Lifecycle.

(** * Properties of the session lifecycle *)

Section LifecycleFacts.

Implicit Types (db : Store) (u : UserId) (s : StudySession.t).

Lemma findActive_None u db :
  findActive u db = None ↔
  ∀ i s, sessions db !! i = Some s → ¬ isActiveOf u s.
Proof.
  unfold findActive. rewrite fmap_None, list_find_None, Forall_forall.
  split.
  - intros H i s Hi. apply (H (i, s)).
    apply elem_of_map_to_list. exact Hi.
  - intros H [i s] Hin. apply (H i).
    apply elem_of_map_to_list. exact Hin.
Qed.

Lemma findActive_is_Some u db i s :
  sessions db !! i = Some s → isActiveOf u s → is_Some (findActive u db).
Proof.
  intros Hi Ha. destruct (findActive u db) eqn:E; [eauto|].
  exfalso. eapply findActive_None; eauto.
Qed.

Lemma findOwned_Some sid u db s :
  findOwned sid u db = Some s ↔
  sessions db !! sid = Some s ∧ StudySession.userId s = u.
Proof.
  unfold findOwned. destruct (sessions db !! sid) as [s'|].
  - case_decide as Hu; split; intros Hs; try congruence.
    + split; congruence.
    + destruct Hs; congruence.
    + destruct Hs; congruence.
  - split; [congruence|]. intros [Hs _]. congruence.
Qed.

(** Adding hours to a task changes no field that the schema validates. *)
Lemma validates_addActual (m : Z) (task : Task.t) :
  Task.validates (addActual m task) = Task.validates task.
Proof. reflexivity. Qed.

Lemma savedTask_valid now s db task :
  tasks db !! StudySession.taskId s = Some task →
  Task.validates task = true →
  savedTask now s db
  = Some (addActual ((now - StudySession.startTime s) / 60000) task).
Proof.
  intros Ht Hv. unfold savedTask. rewrite Ht, validates_addActual, Hv.
  reflexivity.
Qed.


Lemma savedTask_missing now s db :
  tasks db !! StudySession.taskId s = None → savedTask now s db = None.
Proof. intros Ht. unfold savedTask. rewrite Ht. reflexivity. Qed.

Lemma PUT_found now u body db s :
  findOwned (sessionId body) u db = Some s →
  PUT now (Some u) body db
  = (answerPUT now body s db, afterPUT now body s db).
Proof.
  intros Hf. unfold PUT, answerPUT, afterPUT, savedTask. rewrite Hf. cbn.
  destruct (tasks db !! StudySession.taskId s) as [task|]; [|reflexivity].
  destruct (Task.validates _); reflexivity.
Qed.

(** What [PUT] answers once the session is found: 500 when the task is
    there and does not pass the validation, 200 in every other case. *)
Lemma answerPUT_cases now body s db :
  (answerPUT now body s db = Failure 500 "Failed to update session"
   ∧ ∃ task, tasks db !! StudySession.taskId s = Some task
             ∧ Task.validates task = false)
  ∨ (answerPUT now body s db = Json 200 (sessionId body, finish now body s)
     ∧ ∀ task, tasks db !! StudySession.taskId s = Some task →
               Task.validates task = true).
Proof.
  unfold answerPUT, savedTask.
  destruct (tasks db !! StudySession.taskId s) as [task|].
  - rewrite validates_addActual.
    destruct (Task.validates task) eqn:Hv.
    + right. split; [reflexivity|]. intros task' [= <-]. exact Hv.
    + left. split; [reflexivity|]. by exists task.
  - right. split; [reflexivity|]. intros task' [=].
Qed.

Lemma oneActive_insert_ended db sid s :
  oneActive db → StudySession.endTime s ≠ None →
  ∀ ts, oneActive (mkStore (<[sid := s]> (sessions db)) ts).
Proof.
  intros Hinv Hend ts i j s1 s2; cbn.
  rewrite !lookup_insert_Some.
  intros [[Hi Hs1]|[Hi H1]] [[Hj Hs2]|[Hj H2]] Hu E1 E2; subst;
    try congruence.
  eapply Hinv; eauto.
Qed.

Lemma oneActive_POST now auth t db :
  oneActive db → oneActive (POST now auth t db).2.
Proof.
  intros Hinv. unfold POST.
  destruct auth as [u|]; [|exact Hinv].
  destruct (findActive u db) eqn:Hf; [exact Hinv|].
  destruct t as [t|]; [|exact Hinv]. cbn.
  pose proof (proj1 (findActive_None u db) Hf) as Hnone.
  intros i j s1 s2; cbn. rewrite !lookup_insert_Some.
  intros [[Hi Hs1]|[Hi H1]] [[Hj Hs2]|[Hj H2]] Hu E1 E2; subst; cbn in *.
  - reflexivity.
  - exfalso. apply (Hnone j s2 H2). split; [symmetry|]; done.
  - exfalso. apply (Hnone i s1 H1). split; done.
  - eapply Hinv; eauto.
Qed.

Lemma oneActive_PUT now auth body db :
  oneActive db → oneActive (PUT now auth body db).2.
Proof.
  intros Hinv. destruct auth as [u|]; [|exact Hinv].
  destruct (findOwned (sessionId body) u db) as [s|] eqn:Hf.
  - rewrite (PUT_found _ _ _ _ _ Hf). cbn. unfold afterPUT.
    apply oneActive_insert_ended; done.
  - unfold PUT. rewrite Hf. exact Hinv.
Qed.

Lemma oneActive_sequential db : sequential db → oneActive db.
Proof.
  induction 1 as [ts|r db _ IH|ts db _ IH].
  - intros i j s1 s2 H1. cbn in H1. by rewrite lookup_empty in H1.
  - destruct r; cbn; [by apply oneActive_POST|by apply oneActive_PUT].
  - exact IH.
Qed.

(** Requests handled one after the other are a run of the server. *)
Lemma sequential_reachable db : sequential db → reachable db.
Proof.
  induction 1 as [ts|r db _ [w IH]|ts db _ [w IH]].
  - exists []. apply run_init.
  - exists w. apply (run_handle r _ IH).
  - exists w. apply (run_tasks ts _ IH).
Qed.

End LifecycleFacts.

(** [POST] is its query followed by its insertion. *)
Lemma POST_two_accesses now u t db :
  POST now (Some u) (Some t) db
  = if POST_query u db
    then (Failure 400 "You already have an active session", db)
    else POST_insert now u t db.
Proof.
  unfold POST, POST_query, POST_insert.
  destruct (findActive u db) as [x|]; reflexivity.
Qed.

(** C1 does not hold of the code. [POST] looks for an active session and
    inserts the new one in two accesses to the store, each behind an
    [await], and nothing ties the two together. Two [POST] requests of
    user 1, on a store without sessions, both run their query before
    either inserts: neither finds an active session, both insert and are
    answered 201, and the store then holds two sessions of user 1 with
    [endTime = null]. Handled one after the other, the second of the two
    requests is refused with status 400. *)
Theorem concurrent_starts_two_active :
  POST_query 1%nat Examples.db0 = false
  ∧ (∃ s0 s1 db,
       POST_insert 120000 1%nat 7%nat Examples.db0 = (Json 201 (0%nat, s0), db)
       ∧ POST_insert 120001 1%nat 7%nat db
         = (Json 201 (1%nat, s1), Examples.raced)
       ∧ sessions Examples.raced !! 0%nat = Some s0
       ∧ sessions Examples.raced !! 1%nat = Some s1
       ∧ isActiveOf 1%nat s0 ∧ isActiveOf 1%nat s1)
  ∧ reachable Examples.raced
  ∧ ¬ oneActive Examples.raced
  ∧ (POST 120001 (Some 1%nat) (Some 7%nat)
       (POST 120000 (Some 1%nat) (Some 7%nat) Examples.db0).2).1
    = Failure 400 "You already have an active session".
Proof.
  split; [reflexivity|]. split; [|split; [|split]].
  - eexists _, _, _. split; [reflexivity|]. split; [reflexivity|].
    split; [vm_compute; reflexivity|]. split; [vm_compute; reflexivity|].
    split; split; reflexivity.
  - exists [].
    pose proof (run_init {[ 7%nat := Examples.essay ]}) as H0.
    pose proof (run_check 1%nat 7%nat _ H0 eq_refl) as H1.
    pose proof (run_check 1%nat 7%nat _ H1 eq_refl) as H2.
    pose proof (run_insert 120000 1%nat 7%nat [] [(1%nat, 7%nat)] _ H2
                  eq_refl) as H3.
    exact (run_insert 120001 1%nat 7%nat [] [] _ H3 eq_refl).
  - intros H.
    specialize (H 0%nat 1%nat
                  (StudySession.mk 1%nat 7%nat 120000 None (Some 0) 0
                     (Some false) "" 120000)
                  (StudySession.mk 1%nat 7%nat 120001 None (Some 0) 0
                     (Some false) "" 120001)).
    assert (0%nat = 1%nat) as Heq; [|discriminate].
    apply H; try reflexivity; vm_compute; reflexivity.
  - vm_compute. reflexivity.
Qed.

(** The fields of a session as [PUT] leaves them. *)
Lemma finish_fields now body s :
  StudySession.endTime (finish now body s) = Some now
  ∧ StudySession.totalMinutes (finish now body s)
    = (now - StudySession.startTime s) / 60000
  ∧ StudySession.pomodorosCompleted (finish now body s)
    = Lifecycle.pomodorosCompleted body
  ∧ StudySession.wasCompleted (finish now body s) = Lifecycle.wasCompleted body
  ∧ StudySession.userId (finish now body s) = StudySession.userId s
  ∧ StudySession.taskId (finish now body s) = StudySession.taskId s
  ∧ StudySession.startTime (finish now body s) = StudySession.startTime s.
Proof. repeat split. Qed.

Lemma PUT_persists now u body db s :
  findOwned (sessionId body) u db = Some s →
  sessions (PUT now (Some u) body db).2 !! sessionId body
  = Some (finish now body s).
Proof.
  intros Hf. rewrite (PUT_found _ _ _ _ _ Hf). cbn.
  apply lookup_insert_eq.
Qed.

(** C2, as the code has it. A [PUT] that finds the session persists it
    with [endTime = now] and
    [totalMinutes = floor ((now - startTime) / 60000)], which is negative
    exactly when [now] is before [startTime]. No clock error exists: the
    answer is 200 with the session, or 500 when the session's task is
    there and does not pass the validation of its schema, and neither
    depends on the sign of the duration. *)
Theorem completeSession_totalMinutes
    (now : Z) (u : UserId) (body : PutBody) (db : Store)
    (s : StudySession.t) :
  findOwned (sessionId body) u db = Some s →
  ∃ s',
    sessions (PUT now (Some u) body db).2 !! sessionId body = Some s'
    ∧ StudySession.endTime s' = Some now
    ∧ StudySession.totalMinutes s'
      = (now - StudySession.startTime s) / 60000
    ∧ 60000 * StudySession.totalMinutes s' ≤ now - StudySession.startTime s
      < 60000 * StudySession.totalMinutes s' + 60000
    ∧ (0 ≤ StudySession.totalMinutes s' ↔ StudySession.startTime s ≤ now)
    ∧ ((PUT now (Some u) body db).1 = Json 200 (sessionId body, s')
       ∨ (PUT now (Some u) body db).1
         = Failure 500 "Failed to update session")
    ∧ ((PUT now (Some u) body db).1 = Failure 500 "Failed to update session"
       ↔ ∃ task, tasks db !! StudySession.taskId s = Some task
                 ∧ Task.validates task = false).
Proof.
  intros Hf. exists (finish now body s).
  split; [by apply PUT_persists|].
  rewrite (PUT_found _ _ _ _ _ Hf). cbn [fst].
  cbn [finish StudySession.endTime StudySession.totalMinutes].
  split; [reflexivity|]. split; [reflexivity|].
  pose proof (Z.div_mod (now - StudySession.startTime s) 60000 ltac:(lia)).
  pose proof (Z.mod_pos_bound (now - StudySession.startTime s) 60000
                ltac:(lia)).
  split; [lia|]. split; [split; intros; [lia|apply Z.div_pos; lia]|].
  destruct (answerPUT_cases now body s db) as [[-> Hex]|[-> Hall]].
  - split; [by right|]. split; [intros _; exact Hex|reflexivity].
  - split; [by left|]. split; [discriminate|].
    intros (task & Ht & Hv). rewrite (Hall task Ht) in Hv. discriminate.
Qed.

Lemma completeSession_totalMinutes_witness :
  ∃ s',
    sessions (PUT 720000 (Some 1%nat) Examples.done1 Examples.db1).2 !! 0%nat
    = Some s'
    ∧ StudySession.endTime s' = Some 720000
    ∧ StudySession.totalMinutes s' = 10.
Proof.
  destruct (completeSession_totalMinutes 720000 1%nat Examples.done1
              Examples.db1
              (StudySession.mk 1%nat 7%nat 120000 None (Some 0) 0
                 (Some false) "" 120000))
    as (s' & H1 & H2 & H3 & _).
  - vm_compute. reflexivity.
  - exists s'. split; [exact H1|]. split; [exact H2|].
    rewrite H3. reflexivity.
Defined.

(** C2 fails as stated: the session of [Examples.db1] started at 120000 ms;
    a [PUT] when the server clock reads 0 is answered with status 200 and
    persists [totalMinutes = -2]. *)
Lemma completeSession_negative_duration :
  ∃ s,
    findOwned 0%nat 1%nat Examples.db1 = Some s
    ∧ 0 - StudySession.startTime s < 0
    ∧ (PUT 0 (Some 1%nat) Examples.done1 Examples.db1).1
      = Json 200 (0%nat, finish 0 Examples.done1 s)
    ∧ (StudySession.totalMinutes
         <$> sessions (PUT 0 (Some 1%nat) Examples.done1 Examples.db1).2
             !! 0%nat)
      = Some (-2).
Proof.
  exists (StudySession.mk 1%nat 7%nat 120000 None (Some 0) 0
            (Some false) "" 120000).
  split; [vm_compute; reflexivity|]. split; [reflexivity|].
  split; vm_compute; reflexivity.
Qed.

(** C3 does not hold of the code. The session of [Examples.db2] is already
    completed (10 minutes, which made the task's [actualHours] 1/6). A
    second [PUT] for it, 20 minutes after its start, is answered with
    status 200, overwrites [endTime] and [totalMinutes], and adds a further
    20/60 to [actualHours], which becomes 1/2. *)
Theorem recompletion_increments_again :
  (StudySession.endTime <$> sessions Examples.db2 !! 0%nat)
  = Some (Some 720000)
  ∧ (∃ t, tasks Examples.db2 !! 7%nat = Some t
          ∧ (Task.actualHours t == 1 # 6)%Q)
  ∧ (∃ s', (PUT 1320000 (Some 1%nat) Examples.done1 Examples.db2).1
           = Json 200 (0%nat, s')
           ∧ StudySession.endTime s' = Some 1320000
           ∧ StudySession.totalMinutes s' = 20)
  ∧ (∃ t, tasks (PUT 1320000 (Some 1%nat) Examples.done1 Examples.db2).2
            !! 7%nat = Some t
          ∧ (Task.actualHours t == 1 # 2)%Q).
Proof.
  split; [vm_compute; reflexivity|]. split; [|split].
  - eexists. split; [vm_compute; reflexivity|]. reflexivity.
  - eexists. split; [vm_compute; reflexivity|]. split; reflexivity.
  - eexists. split; [vm_compute; reflexivity|]. reflexivity.
Qed.

(** C8. When the session is found but its task is gone, [PUT] answers with
    status 200 and the completed session, which it has persisted with its
    final fields: [endTime] is [now], [totalMinutes] the minutes elapsed,
    [pomodorosCompleted] and [wasCompleted] are those of the body, and
    [notes] are those of the body when it has some that are not empty, and
    those that the session had otherwise. The task collection is left as
    it was. *)
Theorem completeSession_task_missing
    (now : Z) (u : UserId) (body : PutBody) (db : Store)
    (s : StudySession.t) :
  findOwned (sessionId body) u db = Some s →
  tasks db !! StudySession.taskId s = None →
  ∃ s',
    PUT now (Some u) body db
    = (Json 200 (sessionId body, s'),
       mkStore (<[sessionId body := s']> (sessions db)) (tasks db))
    ∧ StudySession.endTime s' = Some now
    ∧ StudySession.totalMinutes s'
      = (now - StudySession.startTime s) / 60000
    ∧ StudySession.pomodorosCompleted s' = Lifecycle.pomodorosCompleted body
    ∧ StudySession.wasCompleted s' = Lifecycle.wasCompleted body
    ∧ (∀ n, Lifecycle.notes body = Some n → n ≠ "" →
            StudySession.notes s' = n)
    ∧ (Lifecycle.notes body = None ∨ Lifecycle.notes body = Some "" →
       StudySession.notes s' = StudySession.notes s)
    ∧ StudySession.userId s' = StudySession.userId s
    ∧ StudySession.taskId s' = StudySession.taskId s
    ∧ StudySession.startTime s' = StudySession.startTime s.
Proof.
  intros Hf Ht. exists (finish now body s).
  rewrite (PUT_found _ _ _ _ _ Hf).
  unfold answerPUT, afterPUT. rewrite (savedTask_missing _ _ _ Ht), Ht.
  split; [reflexivity|]. split; [reflexivity|]. split; [reflexivity|].
  split; [reflexivity|]. split; [reflexivity|]. split; [|split; [|done]].
  - intros n Hn Hne. cbn. rewrite Hn. cbn.
    destruct (decide (n = "")); [contradiction|reflexivity].
  - intros [Hn|Hn]; cbn; rewrite Hn; reflexivity.
Qed.

Lemma completeSession_task_missing_witness :
  ∃ s',
    PUT 720000 (Some 1%nat) Examples.done1_noted Examples.db1_orphan
    = (Json 200 (0%nat, s'),
       mkStore (<[0%nat := s']> (sessions Examples.db1_orphan)) ∅)
    ∧ StudySession.endTime s' = Some 720000
    ∧ StudySession.totalMinutes s' = 10
    ∧ StudySession.notes s' = "chapter 3".
Proof.
  destruct (completeSession_task_missing 720000 1%nat Examples.done1_noted
              Examples.db1_orphan
              (StudySession.mk 1%nat 7%nat 120000 None (Some 0) 0
                 (Some false) "" 120000))
    as (s' & H1 & H2 & H3 & _ & _ & H6 & _).
  - vm_compute. reflexivity.
  - reflexivity.
  - exists s'. split; [exact H1|]. split; [exact H2|].
    split; [rewrite H3; reflexivity|].
    apply H6; [reflexivity|discriminate].
Defined.

(** C10. A [PUT] whose body has no [notes], or the empty string, leaves the
    stored [notes] of the session as they were (a non-empty string replaces
    them); [endTime], [totalMinutes], [pomodorosCompleted] and
    [wasCompleted] are overwritten in every case, with [now], the minutes
    elapsed since [startTime], and the values of the body. *)
Theorem completeSession_notes_kept
    (now : Z) (u : UserId) (body : PutBody) (db : Store)
    (s : StudySession.t) :
  findOwned (sessionId body) u db = Some s →
  ∃ s',
    sessions (PUT now (Some u) body db).2 !! sessionId body = Some s'
    ∧ (Lifecycle.notes body = None ∨ Lifecycle.notes body = Some "" →
       StudySession.notes s' = StudySession.notes s)
    ∧ (∀ n, Lifecycle.notes body = Some n → n ≠ "" →
       StudySession.notes s' = n)
    ∧ StudySession.endTime s' = Some now
    ∧ StudySession.totalMinutes s'
      = (now - StudySession.startTime s) / 60000
    ∧ StudySession.pomodorosCompleted s' = Lifecycle.pomodorosCompleted body
    ∧ StudySession.wasCompleted s' = Lifecycle.wasCompleted body.
Proof.
  intros Hf. exists (finish now body s).
  split; [by apply PUT_persists|].
  split; [|split; [|repeat split]].
  - intros [Hn|Hn]; cbn; rewrite Hn; reflexivity.
  - intros n Hn Hne. cbn. rewrite Hn. cbn.
    destruct (decide (n = "")); [contradiction|reflexivity].
Qed.

Lemma completeSession_notes_kept_witness :
  ∃ s',
    sessions Examples.db2 !! 0%nat = Some s'
    ∧ StudySession.notes s' = ""
    ∧ StudySession.endTime s' = Some 720000
    ∧ StudySession.pomodorosCompleted s' = Some 1.
Proof.
  destruct (completeSession_notes_kept 720000 1%nat Examples.done1
              Examples.db1
              (StudySession.mk 1%nat 7%nat 120000 None (Some 0) 0
                 (Some false) "" 120000))
    as (s' & H1 & H2 & _ & H4 & _ & H6 & _).
  - vm_compute. reflexivity.
  - exists s'. split; [exact H1|]. split; [|split; [exact H4|exact H6]].
    apply H2. left. reflexivity.
Defined.

(** A [PUT] adds the elapsed hours to a task that passes the validation,
    whether or not the session was already completed: the lookup does not
    look at [endTime]. *)
Lemma PUT_adds_hours now u body db s task :
  findOwned (sessionId body) u db = Some s →
  tasks db !! StudySession.taskId s = Some task →
  Task.validates task = true →
  tasks (PUT now (Some u) body db).2 !! StudySession.taskId s
  = Some (addActual ((now - StudySession.startTime s) / 60000) task).
Proof.
  intros Hf Ht Hv. rewrite (PUT_found _ _ _ _ _ Hf). cbn.
  rewrite (savedTask_valid _ _ _ _ Ht Hv). apply lookup_insert_eq.
Qed.

(** * Properties of the analytics *)

Import Analytics.

Section Accuracy.

(** The accuracy of one task is the specification's formula. *)
Lemma taskAccuracy_spec (t : TaskId * Task.t) :
  difference (taskAccuracyOf t)
  = (Task.actualHours t.2 - Task.estimatedHours t.2)%Q
  ∧ accuracyPercent (taskAccuracyOf t)
    = Spec.accuracyPercent (Task.estimatedHours t.2) (Task.actualHours t.2).
Proof.
  split; [reflexivity|].
  unfold taskAccuracyOf, Spec.accuracyPercent; cbn.
  destruct (gt (Task.estimatedHours t.2) 0); reflexivity.
Qed.

(** The overall accuracy is computed from the two sums, and the
    specification's formula is its positive part. *)
Lemma overallAccuracy_sums (tasks : list (TaskId * Task.t)) :
  Spec.accuracyPercent (totalEstimated tasks) (totalActual tasks)
  = Math_max 0 (overallAccuracy tasks).
Proof.
  unfold Spec.accuracyPercent, overallAccuracy.
  destruct (gt (totalEstimated tasks) 0); reflexivity.
Qed.

End Accuracy.

(** C4 does not hold of the code for the overall accuracy. For one task
    estimated at 10 hours with 25 actual hours, the task's own
    [accuracyPercent] is 0, as the formula of the specification gives, but
    the overall accuracy, computed from the same two sums, is -50: unlike
    the per-task value it is not passed through [Math.max(0, _)]. *)
Theorem overall_accuracy_unclamped :
  (totalEstimated Examples.overrun == 10)%Q
  ∧ (totalActual Examples.overrun == 25)%Q
  ∧ accuracyPercent <$> taskAccuracy Examples.overrun = [0%Q]
  ∧ (Spec.accuracyPercent (totalEstimated Examples.overrun)
       (totalActual Examples.overrun) == 0)%Q
  ∧ (overallAccuracy Examples.overrun == -50)%Q
  ∧ (s_overallAccuracy
       (r_summary (analytics Examples.noon Examples.utc [] Examples.overrun))
     == -50)%Q.
Proof.
  repeat split; vm_compute; reflexivity.
Qed.

(** * The order of the numbers *)

Section DoubleOrder.

Implicit Types a b c : Double.t.

(** The comparisons of [SpecFloat] go by cases on the two numbers, and on
    their exponents and mantissas when both are finite. *)
Ltac float_order :=
  unfold Double.lt, Double.le, Double.eqb, SFltb, SFleb, SFeqb, SFcompare;
  repeat match goal with
         | x : Double.t |- _ => destruct x as [[|]|[|]| |[|] ? ?]
         end;
  try discriminate; try reflexivity;
  repeat match goal with
         | |- context [Pos.compare_cont Eq ?x ?y] =>
             change (Pos.compare_cont Eq x y) with (Pos.compare x y);
             destruct (Pos.compare_spec x y)
         | |- context [(?x ?= ?y)%Z] => destruct (Z.compare_spec x y)
         end;
  cbn; try discriminate; try reflexivity; try (intros; lia);
  try (intros; exfalso; lia).

Lemma lt_irrefl a : Double.lt a a = false.
Proof. float_order. Qed.

Lemma lt_trans a b c :
  Double.lt a b = true → Double.lt b c = true → Double.lt a c = true.
Proof. float_order. Qed.

Lemma lt_le_trans a b c :
  Double.lt a b = true → Double.le b c = true → Double.lt a c = true.
Proof. float_order. Qed.

Lemma lt_le a b : Double.lt a b = true → Double.le a b = true.
Proof. float_order. Qed.

Lemma lt_not_le a b : Double.lt a b = true → Double.le b a = false.
Proof. float_order. Qed.

Lemma eqb_le a b : Double.eqb a b = true → Double.le b a = true.
Proof. float_order. Qed.

End DoubleOrder.

(** * Days *)

Section Days.




Lemma hasSessions_spec (sessions : list Populated) (d : Z) :
  hasSessions sessions d = true ↔ Spec.dayHasSession sessions d.
Proof.
  unfold hasSessions, Spec.dayHasSession. rewrite existsb_exists.
  split; intros (s & Hin & Hd); exists s.
  - apply list_elem_of_In in Hin. apply bool_decide_eq_true in Hd. done.
  - rewrite bool_decide_eq_true. split; [by apply list_elem_of_In|done].
Qed.

Lemma hasSessions_false (sessions : list Populated) (d : Z) :
  hasSessions sessions d = false ↔ ¬ Spec.dayHasSession sessions d.
Proof.
  rewrite <- hasSessions_spec.
  destruct (hasSessions sessions d); split; intros H; congruence.
Qed.

(** One iteration of the loop. *)
Lemma streakLoop_step (now : Z) (zone : Zone.t) (sessions : list Populated)
    (n : nat) (i : Z) (acc : nat) :
  streakLoop now zone sessions (S n) i acc
  = if hasSessions sessions (isoDay (minusDays zone now i))
    then streakLoop now zone sessions n (i + 1) (S acc)
    else if decide (isoDay (minusDays zone now i) = today now)
         then streakLoop now zone sessions n (i + 1) acc
         else acc.
Proof. reflexivity. Qed.



End Days.

(** C6 does not hold of the code. The loop steps back with
    [setDate(getDate() - i)], which counts days of the server's local
    calendar, and compares UTC dates. On a server on New York time, on the
    evening of the day on which the clocks went back (3 November 2025,
    00:30 UTC), one local day back is 25 hours back: the loop visits the
    UTC dates of today, of two days ago and of three days ago, and never
    yesterday's. With sessions today, yesterday and three days ago, and
    none two days ago, the streak is 1; the scan of the specification over
    the calendar days gives 2, and so does the code on a server on UTC. *)
Theorem streak_skips_yesterday :
  let now := Examples.afterAutumn in
  let sessions := Examples.autumnWeek in
  isoDay now = 20395
  ∧ Forall (λ s, StudySession.endTime s.1
                 = Some (startTime s + totalMinutes s * 60000)
                 ∧ startTime s + totalMinutes s * 60000 ≤ now) sessions
  ∧ Spec.dayHasSession sessions 20395
  ∧ Spec.dayHasSession sessions 20394
  ∧ ¬ Spec.dayHasSession sessions 20393
  ∧ Spec.dayHasSession sessions 20392
  ∧ (isoDay ∘ minusDays Examples.newYork now) <$> [0; 1; 2]
    = [20395; 20393; 20392]
  ∧ currentStreak now Examples.newYork sessions = 1%nat
  ∧ Spec.streakFrom sessions 20395 30 20395 = 2%nat
  ∧ currentStreak now Examples.utc sessions = 2%nat.
Proof.
  cbn zeta.
  split; [reflexivity|].
  split; [repeat constructor; vm_compute; discriminate|].
  split; [apply hasSessions_spec; vm_compute; reflexivity|].
  split; [apply hasSessions_spec; vm_compute; reflexivity|].
  split; [apply hasSessions_false; vm_compute; reflexivity|].
  split; [apply hasSessions_spec; vm_compute; reflexivity|].
  split; [vm_compute; reflexivity|].
  split; [vm_compute; reflexivity|].
  split; vm_compute; reflexivity.
Qed.

Section Daily.


(** The entries before any session is added: one for each of the days
    listed. *)
Lemma emptyWeek_lookup (days : list Z) (d : Z) :
  foldl (λ o day, <[day := Double.zero]> o) (∅ : gmap Z Double.t) days !! d
  = if decide (d ∈ days) then Some Double.zero else None.
Proof.
  assert (Hgen : ∀ m : gmap Z Double.t,
            foldl (λ o day, <[day := Double.zero]> o) m days !! d
            = if decide (d ∈ days) then Some Double.zero else m !! d).
  { induction days as [|x days IH]; intros m.
    - cbn. rewrite decide_False; [reflexivity|]. apply not_elem_of_nil.
    - cbn [foldl]. rewrite IH.
      destruct (decide (d ∈ days)) as [Hin|Hin].
      + rewrite decide_True; [reflexivity|]. by right.
      + destruct (decide (d = x)) as [->|Hne].
        * rewrite lookup_insert_eq. rewrite decide_True; [reflexivity|].
          by left.
        * rewrite lookup_insert_ne by congruence.
          rewrite decide_False; [reflexivity|].
          rewrite elem_of_cons. tauto. }
  rewrite Hgen. rewrite lookup_empty. reflexivity.
Qed.

(** A session changes the entry of its own day, if there is one, and no
    other. *)
Lemma addDay_fold (ss : list Populated) :
  ∀ (m : gmap Z Double.t) (d : Z),
    foldl addDay m ss !! d
    = (λ v, foldl (λ acc s, Double.add acc (hoursOf (totalMinutes s))) v
              (filter (λ s, isoDay (startTime s) = d) ss))
      <$> m !! d.
Proof.
  induction ss as [|s ss IH]; intros m d.
  - cbn. destruct (m !! d); reflexivity.
  - cbn [foldl]. rewrite IH. unfold addDay.
    destruct (decide (isoDay (startTime s) = d)) as [Hd|Hd].
    + rewrite filter_cons_True by exact Hd. rewrite Hd.
      destruct (m !! d) as [v|] eqn:Hm.
      * rewrite lookup_insert_eq. reflexivity.
      * rewrite Hm. reflexivity.
    + rewrite filter_cons_False by exact Hd.
      destruct (m !! isoDay (startTime s)); [|reflexivity].
      rewrite lookup_insert_ne by exact Hd. reflexivity.
Qed.

(** The entry of a day, in any zone: there is one for each day that
    [last7Days] lists, and it holds the hours of the sessions of that
    day. *)
Lemma dailyStudyTime_lookup (now : Z) (zone : Zone.t)
    (sessions : list Populated) (d : Z) :
  dailyStudyTime now zone sessions !! d
  = if decide (d ∈ last7Days now zone)
    then Some (Spec.dayTotal sessions d)
    else None.
Proof.
  unfold dailyStudyTime. rewrite addDay_fold, emptyWeek_lookup.
  case_decide; reflexivity.
Qed.

Lemma dailyStudyTime_dom (now : Z) (zone : Zone.t)
    (sessions : list Populated) :
  dom (dailyStudyTime now zone sessions) = list_to_set (last7Days now zone).
Proof.
  apply set_eq. intros d.
  rewrite elem_of_dom, dailyStudyTime_lookup, elem_of_list_to_set.
  case_decide as Hr.
  - split; [intros _; exact Hr|intros _; eauto].
  - split; [intros [x Hx]; discriminate|intros H; contradiction].
Qed.

End Daily.

(** C7 does not hold of the code. The seven days are found with
    [setDate(getDate() - k)], which counts days of the server's local
    calendar, and are named by their UTC dates. On a server on New York
    time, on the evening of the day on which the clocks went forward
    (9 March 2025, 23:30 UTC), one local day back is 23 hours back and has
    the same UTC date: the day is listed twice, and the breakdown has six
    keys, none for the day six days back. On the evening of the day on
    which the clocks went back (3 November 2025, 00:30 UTC) the breakdown
    has seven keys, but none for yesterday, whose sessions are left out.
    On a server on UTC the breakdown has the seven keys at both
    instants. *)
Theorem last_seven_days_miss_a_day (sessions : list Populated) :
  (isoDay Examples.afterSpring = 20156
   ∧ last7Days Examples.afterSpring Examples.newYork
     = [20151; 20152; 20153; 20154; 20155; 20156; 20156]
   ∧ size (dailyStudyTime Examples.afterSpring Examples.newYork sessions)
     = 6%nat
   ∧ dailyStudyTime Examples.afterSpring Examples.newYork sessions !! 20150
     = None)
  ∧ (isoDay Examples.afterAutumn = 20395
     ∧ last7Days Examples.afterAutumn Examples.newYork
       = [20388; 20389; 20390; 20391; 20392; 20393; 20395]
     ∧ dailyStudyTime Examples.afterAutumn Examples.newYork sessions !! 20394
       = None)
  ∧ size (dailyStudyTime Examples.afterSpring Examples.utc sessions) = 7%nat
  ∧ size (dailyStudyTime Examples.afterAutumn Examples.utc sessions) = 7%nat.
Proof.
  assert (Hspring : last7Days Examples.afterSpring Examples.newYork
                    = [20151; 20152; 20153; 20154; 20155; 20156; 20156])
    by (vm_compute; reflexivity).
  assert (Hautumn : last7Days Examples.afterAutumn Examples.newYork
                    = [20388; 20389; 20390; 20391; 20392; 20393; 20395])
    by (vm_compute; reflexivity).
  assert (Hspring0 : last7Days Examples.afterSpring Examples.utc
                     = [20150; 20151; 20152; 20153; 20154; 20155; 20156])
    by (vm_compute; reflexivity).
  assert (Hautumn0 : last7Days Examples.afterAutumn Examples.utc
                     = [20389; 20390; 20391; 20392; 20393; 20394; 20395])
    by (vm_compute; reflexivity).
  split; [|split; [|split]].
  - split; [reflexivity|]. split; [exact Hspring|]. split.
    + rewrite <- size_dom, dailyStudyTime_dom, Hspring.
      replace (list_to_set [20151; 20152; 20153; 20154; 20155; 20156; 20156])
        with (list_to_set [20151; 20152; 20153; 20154; 20155; 20156]
              : gset Z) by set_solver.
      rewrite size_list_to_set; [reflexivity|].
      repeat (apply NoDup_cons; split;
              [rewrite ?elem_of_cons, elem_of_nil; lia|]).
      apply NoDup_nil_2.
    + rewrite dailyStudyTime_lookup, Hspring.
      rewrite decide_False; [reflexivity|].
      rewrite !elem_of_cons, elem_of_nil. lia.
  - split; [reflexivity|]. split; [exact Hautumn|].
    rewrite dailyStudyTime_lookup, Hautumn.
    rewrite decide_False; [reflexivity|].
    rewrite !elem_of_cons, elem_of_nil. lia.
  - rewrite <- size_dom, dailyStudyTime_dom, Hspring0.
    rewrite size_list_to_set; [reflexivity|].
    repeat (apply NoDup_cons; split;
            [rewrite ?elem_of_cons, elem_of_nil; lia|]).
    apply NoDup_nil_2.
  - rewrite <- size_dom, dailyStudyTime_dom, Hautumn0.
    rewrite size_list_to_set; [reflexivity|].
    repeat (apply NoDup_cons; split;
            [rewrite ?elem_of_cons, elem_of_nil; lia|]).
    apply NoDup_nil_2.
Qed.

Section NewUser.

Lemma streakLoop_nil (now : Z) (zone : Zone.t) (n : nat) :
  ∀ (i : Z) (acc : nat), streakLoop now zone [] n i acc = acc.
Proof.
  induction n as [|n IH]; intros i acc; [reflexivity|].
  rewrite streakLoop_step. cbn [hasSessions existsb].
  case_decide; [apply IH|reflexivity].
Qed.

Lemma findCompleted_nil (u : UserId) (db : Store) :
  (∀ i s, sessions db !! i = Some s → StudySession.userId s = u →
          StudySession.endTime s = None) →
  findCompleted u db = [].
Proof.
  intros H. unfold findCompleted.
  assert (Hall : ∀ p, p ∈ map_to_list (sessions db) →
                      ¬ (StudySession.userId p.2 = u
                         ∧ StudySession.endTime p.2 ≠ None)).
  { intros [j s'] Hin [Hu He]. apply elem_of_map_to_list in Hin.
    apply He. eapply H; eauto. }
  revert Hall. generalize (map_to_list (sessions db)). intros l Hall.
  induction l as [|p l IH]; [reflexivity|].
  rewrite filter_cons_False.
  - apply IH. intros q Hq. apply Hall. by right.
  - apply Hall. by left.
Qed.

Lemma findTasks_nil (u : UserId) (db : Store) :
  (∀ i t, tasks db !! i = Some t → Task.userId t ≠ u) →
  findTasks u db = [].
Proof.
  intros H. unfold findTasks.
  assert (Hall : ∀ p, p ∈ map_to_list (tasks db) → ¬ Task.userId p.2 = u).
  { intros [j t] Hin. apply elem_of_map_to_list in Hin. eapply H; eauto. }
  revert Hall. generalize (map_to_list (tasks db)). intros l Hall.
  induction l as [|p l IH]; [reflexivity|].
  rewrite filter_cons_False.
  - apply IH. intros q Hq. apply Hall. by right.
  - apply Hall. by left.
Qed.

End NewUser.

(** C5, as the code has it. For a user without tasks and without completed
    sessions the analytics are computed without error and every field of
    the summary is zero. The list of insights has two entries: the warning
    that goes with an overall accuracy below 50 (it is 0) and the note on
    the peak hour (hour 0, "12 AM"), which the code pushes whatever the
    hour is. *)
Theorem analytics_of_new_user
    (now : Z) (zone : Zone.t) (u : UserId) (db : Store) :
  (∀ i s, sessions db !! i = Some s → StudySession.userId s = u →
          StudySession.endTime s = None) →
  (∀ i t, tasks db !! i = Some t → Task.userId t ≠ u) →
  ∃ r,
    GET now zone (Some u) db = Json 200 r
    ∧ s_totalPomodoros (r_summary r) = 0
    ∧ (∃ hours, s_totalHoursStudied (r_summary r) = Some hours
                ∧ (hours == 0)%Q)
    ∧ (s_overallAccuracy (r_summary r) == 0)%Q
    ∧ s_currentStreak (r_summary r) = 0%nat
    ∧ s_sessionsCount (r_summary r) = 0%nat
    ∧ r_mostProductiveHour r = 0
    ∧ r_insights r
      = ["âš ï¸ Your time estimates are often off. Try adding 30% buffer time to your estimates.";
         "ðŸ“Š Your peak productivity is around 12 AM. Schedule important tasks then!"].
Proof.
  intros Hs Ht. eexists. split.
  { unfold GET. rewrite (findCompleted_nil u db Hs), (findTasks_nil u db Ht).
    reflexivity. }
  cbn [r_summary r_insights r_mostProductiveHour s_totalPomodoros
       s_totalHoursStudied s_overallAccuracy s_currentStreak
       s_sessionsCount analytics].
  split; [reflexivity|]. split; [eexists; split; reflexivity|].
  split; [reflexivity|].
  split; [apply streakLoop_nil|]. split; [reflexivity|].
  split; [reflexivity|].
  unfold insights, insightStreak, currentStreak.
  rewrite streakLoop_nil. reflexivity.
Qed.

Lemma db1_contents :
  sessions Examples.db1 = {[ 0%nat := Examples.started ]}
  ∧ tasks Examples.db1 = {[ 7%nat := Examples.essay ]}.
Proof. split; vm_compute; reflexivity. Qed.

Lemma analytics_of_new_user_witness :
  ∃ r,
    GET Examples.noon Examples.utc (Some 2%nat) Examples.db1 = Json 200 r
    ∧ s_sessionsCount (r_summary r) = 0%nat
    ∧ length (r_insights r) = 2%nat.
Proof.
  destruct (analytics_of_new_user Examples.noon Examples.utc 2%nat
              Examples.db1)
    as (r & Hr & _ & _ & _ & _ & Hc & _ & Hi).
  - intros i s Hi Hu. rewrite (proj1 db1_contents) in Hi.
    apply lookup_singleton_Some in Hi as [_ <-]. reflexivity.
  - intros i t Hi. rewrite (proj2 db1_contents) in Hi.
    apply lookup_singleton_Some in Hi as [_ <-]. cbn. lia.
  - exists r. split; [exact Hr|]. split; [exact Hc|]. rewrite Hi. reflexivity.
Defined.

(** C5 fails as stated: for the empty store the list of insights is not
    empty. *)
Lemma analytics_of_new_user_insights :
  ∃ r,
    GET Examples.noon Examples.utc (Some 1%nat) (mkStore ∅ ∅) = Json 200 r
    ∧ s_sessionsCount (r_summary r) = 0%nat
    ∧ r_taskAccuracy r = []
    ∧ r_insights r ≠ [].
Proof.
  eexists. split; [vm_compute; reflexivity|].
  split; [reflexivity|]. split; [reflexivity|]. discriminate.
Qed.

Section Hours.

Lemma gt_true (a b : Q) : gt a b = true ↔ (b < a)%Q.
Proof.
  unfold gt. rewrite negb_true_iff. split.
  - intros H. apply Qnot_le_lt. intros Hle.
    apply Qle_bool_iff in Hle. congruence.
  - intros H. destruct (Qle_bool a b) eqn:E; [|reflexivity].
    apply Qle_bool_iff in E. exfalso. eapply Qlt_not_le; eauto.
Qed.

Lemma gt_false (a b : Q) : gt a b = false ↔ (a <= b)%Q.
Proof.
  unfold gt. rewrite negb_false_iff. apply Qle_bool_iff.
Qed.

Lemma get_set (k k' : Z) (v : Double.t) (o : HourObject.t) :
  HourObject.get k' (HourObject.set k v o)
  = if decide (k' = k) then Some v else HourObject.get k' o.
Proof.
  induction o as [|[k1 v1] o IH]; cbn.
  - repeat case_decide; try reflexivity; congruence.
  - destruct (decide (k = k1)) as [->|Hne]; cbn.
    + repeat case_decide; try reflexivity; congruence.
    + destruct (decide (k < k1)); cbn.
      * repeat case_decide; try reflexivity; congruence.
      * rewrite IH. repeat case_decide; try reflexivity; congruence.
Qed.

Lemma set_keys (k : Z) (v : Double.t) (o : HourObject.t) (e : Z * Double.t) :
  e ∈ HourObject.set k v o → e.1 = k ∨ e ∈ o.
Proof.
  induction o as [|[k1 v1] o IH]; cbn.
  - rewrite list_elem_of_singleton. intros ->. by left.
  - destruct (decide (k = k1)) as [->|Hne].
    + rewrite !elem_of_cons. intros [->|H]; [by left|by right; right].
    + destruct (decide (k < k1)).
      * rewrite elem_of_cons. intros [->|H]; [by left|by right].
      * rewrite !elem_of_cons. intros [->|H]; [by right; left|].
        destruct (IH H); [by left|by right; right].
Qed.

Lemma set_ascending (k : Z) (v : Double.t) (o : HourObject.t) :
  HourObject.ascending o → HourObject.ascending (HourObject.set k v o).
Proof.
  unfold HourObject.ascending.
  induction o as [|[k1 v1] o IH]; cbn; intros Hs.
  - repeat constructor.
  - apply StronglySorted_cons in Hs as [Hall Hs].
    destruct (decide (k = k1)) as [->|Hne].
    + apply StronglySorted_cons. split; [exact Hall|exact Hs].
    + destruct (decide (k < k1)).
      * apply StronglySorted_cons. split.
        -- constructor; [cbn; lia|].
           eapply Forall_impl; [exact Hall|]. cbn. intros; lia.
        -- apply StronglySorted_cons. split; [exact Hall|exact Hs].
      * apply StronglySorted_cons. split; [|by apply IH].
        apply Forall_forall. intros e He.
        destruct (set_keys _ _ _ _ He) as [->|Hin]; [cbn; lia|].
        rewrite Forall_forall in Hall. by apply Hall.
Qed.

Lemma get_elem_of (k : Z) (v : Double.t) (o : HourObject.t) :
  HourObject.get k o = Some v → (k, v) ∈ o.
Proof.
  induction o as [|[k1 v1] o IH]; cbn; [discriminate|].
  case_decide as Hk.
  - intros [= <-]. subst. by left.
  - intros H. right. by apply IH.
Qed.

Lemma elem_of_get (k : Z) (v : Double.t) (o : HourObject.t) :
  HourObject.ascending o → (k, v) ∈ o → HourObject.get k o = Some v.
Proof.
  unfold HourObject.ascending.
  induction o as [|[k1 v1] o IH]; cbn; intros Hs Hin.
  - by apply elem_of_nil in Hin.
  - apply StronglySorted_cons in Hs as [Hall Hs].
    apply elem_of_cons in Hin as [[= -> ->]|Hin].
    + case_decide; [reflexivity|congruence].
    + case_decide as Hk; [|by apply IH].
      rewrite Forall_forall in Hall. specialize (Hall _ Hin). cbn in Hall.
      lia.
Qed.

Lemma hourlyData_ascending (zone : Zone.t) (ss : list Populated) :
  ∀ o, HourObject.ascending o →
       HourObject.ascending (foldl (addHour zone) o ss).
Proof.
  induction ss as [|s ss IH]; intros o Ho; [exact Ho|].
  cbn [foldl]. apply IH. unfold addHour. by apply set_ascending.
Qed.

End Hours.

Section PeakHour.

Variable zone : Zone.t.

Lemma get_addHour (o : HourObject.t) (s : Populated) (h : Z) :
  HourObject.get h (addHour zone o s)
  = if decide (h = getHours zone (startTime s))
    then Some (Double.add
                 (Double.or0
                    (default Double.zero
                       (HourObject.get (getHours zone (startTime s)) o)))
                 (hoursOf (totalMinutes s)))
    else HourObject.get h o.
Proof. unfold addHour. apply get_set. Qed.

(** One step of a running sum, in the two ways of writing it. *)
Lemma runningSum_step (v : Double.t) (m : Z) :
  Double.add (Double.or0 v) (hoursOf m)
  = SFadd 53 1024
      (match v with
       | S754_nan | S754_zero _ => S754_zero false
       | _ => v
       end) (Spec.sixtieth m).
Proof. destruct v; reflexivity. Qed.

(** What the hourly object holds under key [h] after the sessions [ss]
    were added to [o]: the running sum of the hours of the sessions of
    hour [h], from the value that [o] had, or from 0. *)
Lemma hourlyData_get (ss : list Populated) :
  ∀ (o : HourObject.t) (h : Z),
    let hs :=
      (λ s : Populated, Spec.sixtieth (StudySession.totalMinutes s.1))
        <$> filter (λ s : Populated,
                      ((StudySession.startTime s.1
                        + Zone.utcOffset zone (StudySession.startTime s.1))
                       / 3600000) `mod` 24 = h) ss in
    let sum v :=
      foldl (λ acc x, SFadd 53 1024
                        (match acc with
                         | S754_nan | S754_zero _ => S754_zero false
                         | _ => acc
                         end) x) v hs in
    HourObject.get h (foldl (addHour zone) o ss)
    = match HourObject.get h o with
      | Some v => Some (sum v)
      | None => if decide (hs = []) then None
                else Some (sum (S754_zero false))
      end.
Proof.
  induction ss as [|s ss IH]; intros o h; cbn zeta.
  - cbn. destruct (HourObject.get h o); reflexivity.
  - cbn [foldl]. cbn zeta in IH. rewrite IH, get_addHour.
    rewrite filter_cons.
    change (((StudySession.startTime s.1
              + Zone.utcOffset zone (StudySession.startTime s.1))
             / 3600000) `mod` 24)
      with (getHours zone (startTime s)).
    destruct (decide (getHours zone (startTime s) = h)) as [Hh|Hh].
    + rewrite decide_True by (symmetry; exact Hh).
      cbn [fmap list_fmap foldl]. rewrite Hh.
      destruct (HourObject.get h o) as [v|]; cbn [default from_option id].
      * rewrite runningSum_step. reflexivity.
      * rewrite decide_False by discriminate.
        rewrite runningSum_step. reflexivity.
    + rewrite decide_False by congruence. reflexivity.
Qed.

Lemma hourTotal_sessions (ss : list Populated) (h : Z) :
  (λ s : Populated, Spec.sixtieth (StudySession.totalMinutes s.1))
    <$> filter (λ s : Populated,
                  ((StudySession.startTime s.1
                    + Zone.utcOffset zone (StudySession.startTime s.1))
                   / 3600000) `mod` 24 = h) ss ≠ [] →
  ∃ s, s ∈ ss ∧ getHours zone (startTime s) = h.
Proof.
  intros Hne.
  destruct (filter _ ss) as [|s l] eqn:Hf; [done|].
  assert (Hin : s ∈ filter (λ s : Populated,
                  ((StudySession.startTime s.1
                    + Zone.utcOffset zone (StudySession.startTime s.1))
                   / 3600000) `mod` 24 = h) ss) by (rewrite Hf; by left).
  apply list_elem_of_filter in Hin as [Hh Hin]. by exists s.
Qed.

(** An entry of [hourlyData] is the total of an hour in which a session
    started, and every such hour has an entry. *)
Lemma hourlyData_entry (ss : list Populated) (k : Z) (v : Double.t) :
  (k, v) ∈ hourlyData zone ss →
  v = Spec.hourTotal zone ss k
  ∧ ∃ s, s ∈ ss ∧ getHours zone (startTime s) = k.
Proof.
  intros Hin. unfold hourlyData in Hin.
  apply elem_of_get in Hin;
    [|apply hourlyData_ascending; constructor].
  rewrite (hourlyData_get ss [] k) in Hin. cbn [HourObject.get] in Hin.
  cbn zeta in Hin.
  destruct (decide (_ = [])) as [Hnil|Hne]; [discriminate|].
  injection Hin as <-. split; [reflexivity|].
  by apply hourTotal_sessions.
Qed.

Lemma hourlyData_has (ss : list Populated) (s : Populated) :
  s ∈ ss →
  HourObject.get (getHours zone (startTime s)) (hourlyData zone ss)
  = Some (Spec.hourTotal zone ss (getHours zone (startTime s))).
Proof.
  intros Hin. unfold hourlyData. rewrite (hourlyData_get ss [] _).
  cbn [HourObject.get]. cbn zeta.
  destruct (decide (_ = [])) as [Hnil|Hne]; [|reflexivity].
  exfalso. apply fmap_nil_inv in Hnil.
  assert (Hs : s ∈ filter (λ s' : Populated,
                 ((StudySession.startTime s'.1
                   + Zone.utcOffset zone (StudySession.startTime s'.1))
                  / 3600000) `mod` 24 = getHours zone (startTime s)) ss).
  { apply list_elem_of_filter. split; [reflexivity|exact Hin]. }
  rewrite Hnil in Hs. by apply elem_of_nil in Hs.
Qed.

(** The scan for the maximum keeps the first entry whose value exceeds
    every value before it and the initial [m], if there is one. *)
Lemma pickHour_fold (l : list (Z * Double.t)) (b : Z) (m : Double.t) :
  let r := foldl pickHour (b, m) l in
  (r = (b, m) ∧ ∀ e, e ∈ l → Double.lt m e.2 = false)
  ∨ (∃ l1 l2,
       l = l1 ++ r :: l2
       ∧ Double.lt m r.2 = true
       ∧ (∀ e, e ∈ l1 → Double.le r.2 e.2 = false)
       ∧ (∀ e, e ∈ l2 → Double.lt r.2 e.2 = false)).
Proof.
  induction l as [|[k x] l IH] using rev_ind; cbn zeta.
  - left. split; [reflexivity|]. intros e He. by apply elem_of_nil in He.
  - rewrite foldl_app. cbn [foldl]. cbn zeta in IH.
    destruct (foldl pickHour (b, m) l) as [h v] eqn:Hr.
    unfold pickHour. destruct (Double.lt v x) eqn:Hg.
    + right. exists l, []. cbn.
      split; [reflexivity|].
      assert (Hbelow : ∀ y, Double.lt v y = false → Double.le x y = false).
      { intros y Hy. destruct (Double.le x y) eqn:Hle; [|reflexivity].
        rewrite (lt_le_trans _ _ _ Hg Hle) in Hy. discriminate. }
      destruct IH as [[[= -> ->] Hall]|(l1 & l2 & -> & Hm & H1 & H2)].
      * split; [exact Hg|]. split.
        -- intros e He. apply Hbelow. by apply Hall.
        -- intros e He. by apply elem_of_nil in He.
      * cbn in *. split; [eapply lt_trans; eauto|]. split.
        -- intros e He. apply Hbelow.
           apply elem_of_app in He as [He|He].
           ++ destruct (Double.lt v e.2) eqn:Hlt; [|reflexivity].
              specialize (H1 e He). rewrite (lt_le _ _ Hlt) in H1.
              discriminate.
           ++ apply elem_of_cons in He as [->|He]; [apply lt_irrefl|].
              by apply H2.
        -- intros e He. by apply elem_of_nil in He.
    + destruct IH as [[[= -> ->] Hall]|(l1 & l2 & -> & Hm & H1 & H2)].
      * left. split; [reflexivity|]. intros e He.
        apply elem_of_app in He as [He|He]; [by apply Hall|].
        apply list_elem_of_singleton in He as ->. exact Hg.
      * right. exists l1, (l2 ++ [(k, x)]). cbn in *.
        split; [by rewrite <- app_assoc|]. split; [exact Hm|].
        split; [exact H1|]. intros e He.
        apply elem_of_app in He as [He|He]; [by apply H2|].
        apply list_elem_of_singleton in He as ->. exact Hg.
Qed.

End PeakHour.

(** C9, as the code has it. Let the total of an hour be the sum that the
    code accumulates for it: the quotients [totalMinutes / 60] of the
    sessions that started in that hour, added as floating-point numbers in
    the order of the sessions. When no hour has a positive total,
    [mostProductiveHour] is 0. When some hour has a positive total,
    [mostProductiveHour] is an hour in which a session started, the
    breakdown holds its total, no hour has a greater total, and among the
    hours whose totals are equal to it, it is the lowest: the keys are
    scanned in ascending order, not in the order in which the accumulation
    met them. *)
Theorem most_productive_hour (zone : Zone.t) (sessions : list Populated) :
  let total := Spec.hourTotal zone sessions in
  let hourOf := λ s, getHours zone (startTime s) in
  let h := mostProductiveHour zone sessions in
  ((∀ s, s ∈ sessions → Double.lt Double.zero (total (hourOf s)) = false) →
   h = 0)
  ∧ ((∃ s, s ∈ sessions ∧ Double.lt Double.zero (total (hourOf s)) = true) →
     (∃ s, s ∈ sessions ∧ hourOf s = h)
     ∧ HourObject.get h (hourlyData zone sessions) = Some (total h)
     ∧ Double.lt Double.zero (total h) = true
     ∧ ∀ s, s ∈ sessions →
         Double.lt (total h) (total (hourOf s)) = false
         ∧ (Double.eqb (total (hourOf s)) (total h) = true → h ≤ hourOf s)).
Proof.
  intros total hourOf h. subst total hourOf h. cbn beta.
  unfold mostProductiveHour, mostProductive, HourObject.entries.
  pose proof (pickHour_fold (hourlyData zone sessions) 0 Double.zero) as Hp.
  cbn zeta in Hp.
  pose proof (hourlyData_ascending zone sessions []
                (SSorted_nil _)) as Hasc.
  fold (hourlyData zone sessions) in Hasc.
  destruct (foldl pickHour (0, Double.zero) (hourlyData zone sessions))
    as [h v].
  cbn [fst snd] in *. split.
  - intros Hall.
    destruct Hp as [[[= -> ->] _]|(l1 & l2 & Hl & Hm & _)]; [reflexivity|].
    assert (Hin : (h, v) ∈ hourlyData zone sessions).
    { rewrite Hl. apply elem_of_app. right. by left. }
    apply hourlyData_entry in Hin as [Hv (s & Hs & Hh)].
    specialize (Hall s Hs). rewrite Hh, <- Hv, Hm in Hall. discriminate.
  - intros (s0 & Hs0 & Hpos).
    pose proof (hourlyData_has zone sessions s0 Hs0) as Hx0.
    apply get_elem_of in Hx0.
    destruct Hp as [[_ Hall]|(l1 & l2 & Hl & Hm & H1 & H2)].
    { specialize (Hall _ Hx0). cbn in Hall. rewrite Hall in Hpos.
      discriminate. }
    assert (Hin : (h, v) ∈ hourlyData zone sessions).
    { rewrite Hl. apply elem_of_app. right. by left. }
    pose proof (hourlyData_entry zone sessions _ _ Hin) as [Hv Hex].
    rewrite <- Hv.
    split; [exact Hex|]. split; [by apply elem_of_get|].
    split; [exact Hm|].
    intros s Hs.
    pose proof (hourlyData_has zone sessions s Hs) as Hx.
    apply get_elem_of in Hx.
    set (x := Spec.hourTotal zone sessions (getHours zone (startTime s))) in *.
    rewrite Hl in Hx, Hasc.
    apply elem_of_app in Hx as [Hx|Hx].
    + specialize (H1 _ Hx). cbn in H1. split.
      * destruct (Double.lt v x) eqn:Hlt; [|reflexivity].
        rewrite (lt_le _ _ Hlt) in H1. discriminate.
      * intros Htie. rewrite (eqb_le _ _ Htie) in H1. discriminate.
    + apply elem_of_cons in Hx as [Hx|Hx].
      * injection Hx as Hk Hxe. rewrite Hk, Hxe.
        split; [apply lt_irrefl|]. intros _. lia.
      * specialize (H2 _ Hx). cbn in H2. split; [exact H2|]. intros _.
        apply StronglySorted_app_1_r in Hasc.
        apply StronglySorted_cons in Hasc as [Hgt _].
        rewrite Forall_forall in Hgt. specialize (Hgt _ Hx). cbn in Hgt.
        lia.
Qed.

Lemma most_productive_hour_witness :
  mostProductiveHour Examples.utc Examples.stoppedAtOnce = 0
  ∧ ∃ s, s ∈ Examples.afternoonFirst
         ∧ getHours Examples.utc (startTime s)
           = mostProductiveHour Examples.utc Examples.afternoonFirst.
Proof.
  split.
  - destruct (most_productive_hour Examples.utc Examples.stoppedAtOnce)
      as [H _].
    apply H. intros s Hs.
    apply list_elem_of_singleton in Hs as ->. vm_compute. reflexivity.
  - destruct (most_productive_hour Examples.utc Examples.afternoonFirst)
      as [_ H].
    apply H.
    exists (Examples.session_at (100 * Examples.day + 15 * Examples.hour) 60).
    split; [by left|]. vm_compute. reflexivity.
Defined.

(** C9 fails as stated, in three ways. For a single session at 15:00 with
    [totalMinutes = 0] the hourly breakdown has the one key 15, and
    [mostProductiveHour] is 0, which is not a key. For an hour of study at
    15:00 accumulated before an hour at 09:00, the two keys tie and the
    first that the accumulation met is 15, but [mostProductiveHour] is 9.
    For 36 minutes in each of the two hours, as sessions of 18, 12 and 6
    minutes at 09:00 and of 6, 12 and 18 minutes at 15:00, the sums differ
    in their last bit and [mostProductiveHour] is 15, not the lowest of
    the two; with the two orders exchanged it is 9. *)
Lemma most_productive_hour_not_first_seen :
  (hourlyData Examples.utc Examples.stoppedAtOnce = [(15, Double.zero)]
   ∧ mostProductiveHour Examples.utc Examples.stoppedAtOnce = 0
   ∧ HourObject.get 0 (hourlyData Examples.utc Examples.stoppedAtOnce) = None)
  ∧ (getHours Examples.utc <$> (startTime <$> Examples.afternoonFirst)
     = [15; 9]
     ∧ hourlyData Examples.utc Examples.afternoonFirst
       = [(9, Double.ofZ 1); (15, Double.ofZ 1)]
     ∧ mostProductiveHour Examples.utc Examples.afternoonFirst = 9)
  ∧ (getHours Examples.utc <$> (startTime <$> Examples.thirtySix')
     = [9; 9; 9; 15; 15; 15]
     ∧ totalMinutes <$> Examples.thirtySix' = [18; 12; 6; 6; 12; 18]
     ∧ hourlyData Examples.utc Examples.thirtySix'
       = [(9, S754_finite false 5404319552844595 (-53));
          (15, S754_finite false 5404319552844596 (-53))]
     ∧ mostProductiveHour Examples.utc Examples.thirtySix' = 15
     ∧ mostProductiveHour Examples.utc Examples.thirtySix = 9).
Proof.
  repeat split; vm_compute; reflexivity.
Qed.

(** * Further properties of the session lifecycle *)



(** X2. [PUT] answers "Session not found" (404) exactly when no session
    with the given id belongs to the authenticated user: an unknown id and
    a session of another user are treated alike. *)
Theorem completeSession_requires_owner
    (now : Z) (u : UserId) (body : PutBody) (db : Store) :
  (PUT now (Some u) body db).1 = Failure 404 "Session not found"
  ↔ ¬ ∃ s, sessions db !! sessionId body = Some s
           ∧ StudySession.userId s = u.
Proof.
  split.
  - intros H (s & Hs & Hu).
    assert (Hf : findOwned (sessionId body) u db = Some s)
      by (apply findOwned_Some; done).
    rewrite (PUT_found _ _ _ _ _ Hf) in H. cbn [fst] in H.
    destruct (answerPUT_cases now body s db) as [[Ha _]|[Ha _]];
      rewrite Ha in H; discriminate.
  - intros H. unfold PUT.
    destruct (findOwned (sessionId body) u db) as [s|] eqn:Hf; [|reflexivity].
    exfalso. apply H. exists s. by apply findOwned_Some.
Qed.

(** X3. [PUT] touches one session and at most one task. Whatever it
    answers, the session collection has the same ids as before, every
    session other than the one named in the body is unchanged, and every
    task other than the task of that session is unchanged. *)
Theorem completeSession_frame
    (now : Z) (auth : option UserId) (body : PutBody) (db : Store) :
  dom (sessions (PUT now auth body db).2) = dom (sessions db)
  ∧ (∀ j, j ≠ sessionId body →
          sessions (PUT now auth body db).2 !! j = sessions db !! j)
  ∧ (∀ tid, (∀ s, sessions db !! sessionId body = Some s →
                  StudySession.taskId s ≠ tid) →
            tasks (PUT now auth body db).2 !! tid = tasks db !! tid)
  ∧ dom (tasks (PUT now auth body db).2) = dom (tasks db).
Proof.
  destruct auth as [u|]; [|by repeat split].
  destruct (findOwned (sessionId body) u db) as [s|] eqn:Hf.
  - rewrite (PUT_found _ _ _ _ _ Hf). cbn.
    apply findOwned_Some in Hf as [Hs _].
    split; [|split; [|split]].
    + apply dom_insert_lookup_L. eauto.
    + intros j Hj. by rewrite lookup_insert_ne.
    + intros tid Ht. specialize (Ht s Hs).
      destruct (savedTask now s db); [|reflexivity].
      by rewrite lookup_insert_ne.
    + unfold savedTask.
      destruct (tasks db !! StudySession.taskId s) as [task|] eqn:Htask;
        [|reflexivity].
      destruct (Task.validates _); [|reflexivity].
      apply dom_insert_lookup_L. eauto.
  - unfold PUT. rewrite Hf. by repeat split.
Qed.

Lemma completeSession_frame_witness :
  tasks Examples.db2 !! 8%nat = tasks Examples.db1 !! 8%nat.
Proof.
  destruct (completeSession_frame 720000 (Some 1%nat) Examples.done1
              Examples.db1) as (_ & _ & H & _).
  apply H. intros s Hs. rewrite (proj1 db1_contents) in Hs.
  apply lookup_singleton_Some in Hs as [_ <-]. cbn. lia.
Defined.

Lemma POST_created now u tid db :
  findActive u db = None →
  POST now (Some u) (Some tid) db
  = (Json 201 (fresh (dom (sessions db)),
               StudySession.mk u tid now None (Some 0) 0 (Some false) "" now),
     mkStore (<[fresh (dom (sessions db)) :=
                  StudySession.mk u tid now None (Some 0) 0 (Some false) ""
                    now]> (sessions db))
             (tasks db)).
Proof. intros Hf. unfold POST. rewrite Hf. reflexivity. Qed.



(** X5. Completing the active session frees the user. In a store with at
    most one active session per user, once the user's active session has
    been completed by [PUT], the user has no active session left, and the
    next [POST] of that user is answered 201. *)
Theorem complete_then_start
    (now now' : Z) (u : UserId) (body : PutBody) (tid : TaskId) (db : Store)
    (s : StudySession.t) :
  oneActive db →
  findOwned (sessionId body) u db = Some s →
  StudySession.endTime s = None →
  findActive u (PUT now (Some u) body db).2 = None
  ∧ ∃ id s',
      (POST now' (Some u) (Some tid) (PUT now (Some u) body db).2).1
      = Json 201 (id, s')
      ∧ StudySession.endTime s' = None
      ∧ StudySession.startTime s' = now'.
Proof.
  intros Hinv Hf Hact.
  assert (Hnone : findActive u (PUT now (Some u) body db).2 = None).
  { apply findActive_None. intros i s' Hi [Hu He].
    rewrite (PUT_found _ _ _ _ _ Hf) in Hi. cbn in Hi.
    apply findOwned_Some in Hf as [Hs Hus].
    apply lookup_insert_Some in Hi as [[_ <-]|[Hne Hi]]; [discriminate|].
    apply Hne. eapply Hinv; eauto. congruence. }
  split; [exact Hnone|].
  rewrite (POST_created _ _ _ _ Hnone). cbn.
  eexists _, _. split; [reflexivity|]. split; reflexivity.
Qed.

Lemma complete_then_start_witness :
  findActive 1%nat Examples.db2 = None.
Proof.
  destruct (complete_then_start 720000 800000 1%nat Examples.done1 7%nat
              Examples.db1 Examples.started) as [H _].
  - apply oneActive_sequential. unfold Examples.db1.
    apply (seq_handle (Start 120000 (Some 1%nat) (Some 7%nat))).
    apply seq_init.
  - vm_compute. reflexivity.
  - reflexivity.
  - exact H.
Defined.

Lemma wellFormed_created now u tid db :
  Measure.wellFormed db →
  Measure.wellFormed (POST_insert now u tid db).2.
Proof.
  intros Hwf i s Hi. cbn in Hi.
  apply lookup_insert_Some in Hi as [[_ <-]|[_ Hi]]; [|by eapply Hwf].
  left. repeat split.
Qed.

Lemma wellFormed_handle r db :
  Measure.wellFormed db → Measure.wellFormed (handle r db).
Proof.
  intros Hwf. destruct r as [now auth t|now auth body]; cbn.
  - destruct auth as [u|]; [|exact Hwf].
    destruct t as [tid|].
    + rewrite POST_two_accesses. destruct (POST_query u db); [exact Hwf|].
      by apply wellFormed_created.
    + unfold POST. destruct (findActive u db); exact Hwf.
  - destruct auth as [u|]; [|exact Hwf].
    destruct (findOwned (sessionId body) u db) as [s0|] eqn:Hf.
    + rewrite (PUT_found _ _ _ _ _ Hf). intros i s Hi. cbn in Hi.
      apply lookup_insert_Some in Hi as [[_ <-]|[_ Hi]]; [|by eapply Hwf].
      right. exists now. split; reflexivity.
    + unfold PUT. rewrite Hf. exact Hwf.
Qed.

Lemma wellFormed_running sv : running sv → Measure.wellFormed (store sv).
Proof.
  induction 1 as [ts|r sv _ IH|ts sv _ IH|u t sv _ IH _
                  |now u t l1 l2 sv _ IH _]; cbn [store].
  - intros i s Hi. cbn in Hi. by rewrite lookup_empty in Hi.
  - by apply wellFormed_handle.
  - exact IH.
  - exact IH.
  - by apply wellFormed_created.
Qed.

(** X6. In every store that the application can reach, each session is
    either untouched since its creation ([endTime] null, [totalMinutes] 0,
    no pomodoros, not completed, empty notes) or has an [endTime] and a
    [totalMinutes] equal to [floor ((endTime - startTime) / 60000)]. *)
Theorem sessions_well_formed (db : Store) :
  reachable db → Measure.wellFormed db.
Proof. intros [waiting Hrun]. exact (wellFormed_running _ Hrun). Qed.

Lemma sessions_well_formed_witness : Measure.wellFormed Examples.db2.
Proof.
  apply sessions_well_formed. apply sequential_reachable.
  unfold Examples.db2.
  apply (seq_handle (Complete 720000 (Some 1%nat) Examples.done1)).
  unfold Examples.db1.
  apply (seq_handle (Start 120000 (Some 1%nat) (Some 7%nat))).
  apply seq_init.
Defined.

(** X7. No request removes a session or moves it: after a [POST] or a
    [PUT], every session that was in the store is still there under its
    id, with the same owner, task, start time and creation time. *)
Theorem sessions_are_kept (r : Request) (db : Store) :
  Measure.keepsSessions db (handle r db).
Proof.
  intros i s Hi. destruct r as [now auth t|now auth body]; cbn.
  - unfold POST. destruct auth as [u|]; [|by exists s].
    destruct (findActive u db); [by exists s|].
    destruct t as [tid|]; [|by exists s]. cbn.
    exists s. split; [|done].
    rewrite lookup_insert_ne; [exact Hi|].
    intros Heq. rewrite <- Heq in Hi.
    apply (elem_of_dom_2 (D := gset nat)) in Hi. by apply is_fresh in Hi.
  - destruct auth as [u|]; [|by exists s].
    destruct (findOwned (sessionId body) u db) as [s0|] eqn:Hf.
    + rewrite (PUT_found _ _ _ _ _ Hf). cbn.
      apply findOwned_Some in Hf as [Hs _].
      destruct (decide (sessionId body = i)) as [Heq|Hne].
      * rewrite Heq in *. exists (finish now body s0).
        split; [apply lookup_insert_eq|].
        assert (s0 = s) as -> by congruence. done.
      * exists s. split; [|done]. by rewrite lookup_insert_ne.
    + unfold PUT. rewrite Hf. by exists s.
Qed.





(** X28. Requests handled one after the other never leave two active
    sessions of one user: every store that is reached in this way has at
    most one session with [endTime = null] per user, and [POST] keeps it
    so. When an active session of the user exists, [POST] answers with the
    error "You already have an active session" and leaves the store as it
    was; when none exists, it inserts under a new id a session with
    [startTime = now] and [endTime = null], returns it with status 201,
    and leaves the task collection as it was. *)
Theorem sequential_starts_single_active
    (now : Z) (u : UserId) (t : option TaskId) (db : Store) :
  (sequential db → oneActive db ∧ oneActive (POST now (Some u) t db).2)
  ∧ ((∃ i s, sessions db !! i = Some s ∧ isActiveOf u s) →
     POST now (Some u) t db
     = (Failure 400 "You already have an active session", db))
  ∧ ((∀ i s, sessions db !! i = Some s → ¬ isActiveOf u s) →
     ∀ tid, t = Some tid →
     ∃ id,
       let s := StudySession.mk u tid now None (Some 0) 0 (Some false) "" now in
       sessions db !! id = None
       ∧ POST now (Some u) t db
         = (Json 201 (id, s), mkStore (<[id := s]> (sessions db)) (tasks db))).
Proof.
  split; [|split].
  - intros Hr. pose proof (oneActive_sequential db Hr) as Hinv.
    split; [exact Hinv|]. by apply oneActive_POST.
  - intros (i & s & Hi & Ha). unfold POST.
    destruct (findActive_is_Some u db i s Hi Ha) as [x ->]. reflexivity.
  - intros Hnone tid ->. exists (fresh (dom (sessions db))). cbn. split.
    + apply not_elem_of_dom, is_fresh.
    + unfold POST. rewrite (proj2 (findActive_None u db) Hnone). reflexivity.
Qed.

Lemma sequential_starts_single_active_witness :
  oneActive Examples.db1
  ∧ POST 130000 (Some 1%nat) (Some 7%nat) Examples.db1
    = (Failure 400 "You already have an active session", Examples.db1)
  ∧ ∃ id,
      sessions Examples.db0 !! id = None
      ∧ (POST 120000 (Some 1%nat) (Some 7%nat) Examples.db0).1
        = Json 201 (id, StudySession.mk 1%nat 7%nat 120000 None (Some 0) 0
                          (Some false) "" 120000).
Proof.
  split; [|split].
  - destruct (sequential_starts_single_active 120000 1%nat (Some 7%nat)
                Examples.db0) as [H _].
    apply H. apply seq_init.
  - destruct (sequential_starts_single_active 130000 1%nat (Some 7%nat)
                Examples.db1) as (_ & H & _).
    apply H. exists 0%nat.
    exists (StudySession.mk 1%nat 7%nat 120000 None (Some 0) 0
              (Some false) "" 120000).
    split; [vm_compute; reflexivity|split; reflexivity].
  - destruct (sequential_starts_single_active 120000 1%nat (Some 7%nat)
                Examples.db0) as (_ & _ & H).
    assert (Hnone : ∀ i s, sessions Examples.db0 !! i = Some s →
                           ¬ isActiveOf 1%nat s).
    { intros i s Hi. cbn in Hi. rewrite lookup_empty in Hi. discriminate. }
    destruct (H Hnone 7%nat eq_refl) as (id & Hid & Heq).
    exists id. split; [exact Hid|]. exact (f_equal fst Heq).
Defined.

(** * The list of sessions *)

Section Listing.

Lemma newerFirst_total : Total SessionList.newerFirst.
Proof. intros x y. unfold SessionList.newerFirst. lia. Qed.

Lemma newerFirst_trans : Transitive SessionList.newerFirst.
Proof. intros x y z. unfold SessionList.newerFirst. lia. Qed.

Lemma elem_of_find (u : UserId) (db : Store) (x : SessionList.Listed) :
  x ∈ SessionList.find u db
  ↔ sessions db !! x.1.1 = Some x.1.2
    ∧ StudySession.userId x.1.2 = u
    ∧ x.2 = tasks db !! StudySession.taskId x.1.2.
Proof.
  unfold SessionList.find. rewrite list_elem_of_fmap. split.
  - intros ([i s] & -> & Hin). apply list_elem_of_filter in Hin as [Hu Hin].
    apply elem_of_map_to_list in Hin. done.
  - destruct x as [[i s] t]. cbn. intros (Hs & Hu & ->).
    exists (i, s). split; [reflexivity|].
    apply list_elem_of_filter. split; [exact Hu|].
    by apply elem_of_map_to_list.
Qed.

End Listing.

(** X9. The session list. Without a user the answer is 401. For a user it
    is 200 with exactly the user's sessions, active ones included, each
    once and each with the task that its [taskId] resolves to (or none),
    ordered from the most recently created to the oldest. *)
Theorem listSessions_newest_first (u : UserId) (db : Store) :
  SessionList.GET None db = Failure 401 "Unauthorized"
  ∧ ∃ l,
      SessionList.GET (Some u) db = Json 200 l
      ∧ StronglySorted SessionList.newerFirst l
      ∧ NoDup (fst <$> (fst <$> l))
      ∧ ∀ x, x ∈ l
             ↔ sessions db !! x.1.1 = Some x.1.2
               ∧ StudySession.userId x.1.2 = u
               ∧ x.2 = tasks db !! StudySession.taskId x.1.2.
Proof.
  split; [reflexivity|]. eexists. split; [reflexivity|].
  split.
  { pose proof newerFirst_total as Htotal.
    pose proof newerFirst_trans as Htrans.
    apply StronglySorted_merge_sort; assumption. }
  split.
  - rewrite merge_sort_Permutation. unfold SessionList.find.
    pose proof (NoDup_fst_map_to_list (sessions db)) as Hnd.
    revert Hnd. generalize (map_to_list (sessions db)). intros l Hnd.
    induction l as [|[i s] l IH]; [constructor|].
    cbn in Hnd. apply NoDup_cons in Hnd as [Hi Hnd].
    rewrite filter_cons. case_decide; [|by apply IH].
    cbn. apply NoDup_cons. split; [|by apply IH].
    intros Hin. apply Hi.
    apply list_elem_of_fmap in Hin as ([j s'] & -> & Hin).
    apply list_elem_of_fmap in Hin as (x & -> & Hin).
    apply list_elem_of_fmap in Hin as (p & -> & Hin).
    apply list_elem_of_filter in Hin as [_ Hin].
    apply list_elem_of_fmap. by exists p.
  - intros x. rewrite merge_sort_Permutation. apply elem_of_find.
Qed.

(** * Deleting a task *)

(** X10. [DELETE] removes a task only for its owner. When the id names a
    task of the authenticated user the answer is 200 and exactly that
    task is removed; in every other case (no id, unknown id, a task of
    another user) the answer is 404 and the store is unchanged. The
    sessions are never touched, also those that refer to the task. *)
Theorem deleteTask_owner_only (u : UserId) (id : option TaskId) (db : Store) :
  sessions (Tasks.DELETE (Some u) id db).2 = sessions db
  ∧ (∀ i task,
       id = Some i → tasks db !! i = Some task → Task.userId task = u →
       Tasks.DELETE (Some u) id db
       = (Json 200 "Task deleted successfully",
          mkStore (sessions db) (delete i (tasks db))))
  ∧ ((¬ ∃ i task, id = Some i ∧ tasks db !! i = Some task
                  ∧ Task.userId task = u) →
     Tasks.DELETE (Some u) id db = (Failure 404 "Task not found", db)).
Proof.
  unfold Tasks.DELETE, Tasks.findOneAndDelete. split; [|split].
  - destruct id as [i|]; [|reflexivity].
    destruct (tasks db !! i) as [task|]; [|reflexivity].
    case_decide; reflexivity.
  - intros i task -> Ht Hu. rewrite Ht.
    rewrite decide_True by exact Hu. reflexivity.
  - intros Hno. destruct id as [i|]; [|reflexivity].
    destruct (tasks db !! i) as [task|] eqn:Ht; [|reflexivity].
    case_decide as Hu; [|reflexivity].
    exfalso. apply Hno. by exists i, task.
Qed.

Lemma deleteTask_owner_only_witness :
  Tasks.DELETE (Some 1%nat) (Some 7%nat) Examples.db1
  = (Json 200 "Task deleted successfully",
     mkStore (sessions Examples.db1) (delete 7%nat (tasks Examples.db1)))
  ∧ Tasks.DELETE (Some 2%nat) (Some 7%nat) Examples.db1
    = (Failure 404 "Task not found", Examples.db1).
Proof.
  split.
  - destruct (deleteTask_owner_only 1%nat (Some 7%nat) Examples.db1)
      as (_ & H & _).
    apply (H 7%nat Examples.essay); [reflexivity| |reflexivity].
    vm_compute. reflexivity.
  - destruct (deleteTask_owner_only 2%nat (Some 7%nat) Examples.db1)
      as (_ & _ & H).
    apply H. intros (i & task & [= <-] & Ht & Hu).
    rewrite (proj2 db1_contents) in Ht.
    apply lookup_singleton_Some in Ht as [_ <-]. cbn in Hu. lia.
Defined.

(** X11. A session outlives its task. After the owner of a task has
    deleted it, a [PUT] for a session on that task is still answered 200
    and persists the completed session; the task is not created anew, so
    the minutes are recorded on the session only. *)
Theorem complete_after_delete
    (now : Z) (u v : UserId) (body : PutBody) (db : Store)
    (s : StudySession.t) (task : Task.t) :
  findOwned (sessionId body) u db = Some s →
  tasks db !! StudySession.taskId s = Some task →
  Task.userId task = v →
  ∃ db',
    Tasks.DELETE (Some v) (Some (StudySession.taskId s)) db
    = (Json 200 "Task deleted successfully", db')
    ∧ (PUT now (Some u) body db').1
      = Json 200 (sessionId body, finish now body s)
    ∧ sessions (PUT now (Some u) body db').2 !! sessionId body
      = Some (finish now body s)
    ∧ tasks (PUT now (Some u) body db').2 !! StudySession.taskId s = None.
Proof.
  intros Hf Ht Hv. eexists. split.
  { unfold Tasks.DELETE, Tasks.findOneAndDelete. rewrite Ht.
    rewrite decide_True by exact Hv. reflexivity. }
  set (db' := mkStore _ _).
  assert (Hf' : findOwned (sessionId body) u db' = Some s) by exact Hf.
  assert (Hgone : tasks db' !! StudySession.taskId s = None)
    by apply lookup_delete_eq.
  rewrite (PUT_found _ _ _ _ _ Hf'). unfold answerPUT, afterPUT.
  rewrite (savedTask_missing _ _ _ Hgone), Hgone. cbn.
  split; [reflexivity|]. split; [apply lookup_insert_eq|].
  apply lookup_delete_eq.
Qed.

Lemma complete_after_delete_witness :
  ∃ db',
    Tasks.DELETE (Some 1%nat) (Some 7%nat) Examples.db1
    = (Json 200 "Task deleted successfully", db')
    ∧ tasks (PUT 720000 (Some 1%nat) Examples.done1 db').2 !! 7%nat = None.
Proof.
  destruct (complete_after_delete 720000 1%nat 1%nat Examples.done1
              Examples.db1 Examples.started Examples.essay)
    as (db' & H1 & _ & _ & H4).
  - vm_compute. reflexivity.
  - vm_compute. reflexivity.
  - reflexivity.
  - exists db'. split; [exact H1|exact H4].
Defined.

(** * Further properties of the analytics *)

(** X12. What the analytics read. Without a user the answer is 401. The
    sessions that enter the computation are exactly the sessions of the
    user that have an [endTime], each with the task its [taskId] resolves
    to (or none), and the tasks are exactly the tasks of the user: an
    active session, or a document of another user, is never counted. *)
Theorem analytics_inputs (now : Z) (zone : Zone.t) (u : UserId) (db : Store) :
  GET now zone None db = Failure 401 "Unauthorized"
  ∧ GET now zone (Some u) db
    = Json 200 (analytics now zone (findCompleted u db) (findTasks u db))
  ∧ (∀ x, x ∈ findCompleted u db
          ↔ ∃ i, sessions db !! i = Some x.1
                 ∧ StudySession.userId x.1 = u
                 ∧ StudySession.endTime x.1 ≠ None
                 ∧ x.2 = tasks db !! StudySession.taskId x.1)
  ∧ (∀ t, t ∈ findTasks u db
          ↔ tasks db !! t.1 = Some t.2 ∧ Task.userId t.2 = u).
Proof.
  split; [reflexivity|]. split; [reflexivity|]. split.
  - intros x. unfold findCompleted. rewrite list_elem_of_fmap. split.
    + intros ([i s] & -> & Hin).
      apply list_elem_of_filter in Hin as [[Hu He] Hin].
      apply elem_of_map_to_list in Hin. exists i. done.
    + destruct x as [s t]. cbn. intros (i & Hs & Hu & He & ->).
      exists (i, s). split; [reflexivity|].
      apply list_elem_of_filter. split; [done|].
      by apply elem_of_map_to_list.
  - intros [i t]. unfold findTasks. rewrite list_elem_of_filter.
    rewrite elem_of_map_to_list. cbn. split; intros [? ?]; done.
Qed.

Section AccuracyBounds.

Lemma Math_max_0 (x : Q) :
  (0 <= Math_max 0 x)%Q ∧ (x <= Math_max 0 x)%Q
  ∧ ((0 <= x)%Q → Math_max 0 x = x)
  ∧ ((x <= 0)%Q → (Math_max 0 x == 0)%Q).
Proof.
  unfold Math_max. destruct (Qle_bool 0 x) eqn:E.
  - apply Qle_bool_iff in E. repeat split; intros; lra.
  - assert (x < 0)%Q.
    { apply Qnot_le_lt. intros H. apply Qle_bool_iff in H. congruence. }
    repeat split; intros; lra.
Qed.

Lemma accuracyPercent_bounds (e a : Q) :
  let p := Spec.accuracyPercent e a in
  (0 <= p)%Q ∧ (p <= 100)%Q
  ∧ ((e <= 0)%Q → (p == 0)%Q)
  ∧ ((0 < e)%Q →
     ((p == 100)%Q ↔ (a == e)%Q)
     ∧ ((p == 0)%Q ↔ (e <= Qabs (a - e))%Q)).
Proof.
  cbn zeta. unfold Spec.accuracyPercent.
  destruct (gt e 0) eqn:Hg.
  - apply gt_true in Hg.
    destruct (Math_max_0 ((e - Qabs (a - e)) / e * 100)%Q)
      as (H0 & Hx & Hpos & Hneg).
    pose proof (Qabs_nonneg (a - e)) as Habs.
    assert (Hre : ((e - Qabs (a - e)) / e * 100 * e
                   == (e - Qabs (a - e)) * 100)%Q) by (field; lra).
    assert (Hzero : (a == e)%Q ↔ (Qabs (a - e) == 0)%Q).
    { split.
      - intros Hae. assert (Hz0 : (a - e == 0)%Q) by lra.
        rewrite Hz0. reflexivity.
      - intros Hz.
        apply (Qabs_case (a - e) (λ y, y == 0 → a == e)%Q);
          [intros; lra|intros; lra|exact Hz]. }
    set (r := ((e - Qabs (a - e)) / e * 100)%Q) in *. clearbody r.
    set (d := Qabs (a - e)) in *. clearbody d.
    split; [exact H0|].
    destruct (Qlt_le_dec r 0) as [Hl|Hl].
    + rewrite (Hneg ltac:(lra)).
      split; [lra|]. split; [intros; lra|]. intros _. split.
      * rewrite Hzero. split; [intros; lra|]. intros Hz. exfalso.
        assert (0 < (- r) * e)%Q by (apply Qmult_lt_0_compat; lra). nra.
      * split; [|reflexivity]. intros _.
        assert (0 < (- r) * e)%Q by (apply Qmult_lt_0_compat; lra). nra.
    + rewrite (Hpos Hl).
      assert (0 <= r * e)%Q by (apply Qmult_le_0_compat; lra).
      split; [nra|]. split; [intros; lra|]. intros _. split.
      * rewrite Hzero. split; intros H'; nra.
      * split; intros H'; nra.
  - apply gt_false in Hg.
    split; [lra|]. split; [lra|]. split; [reflexivity|]. intros; lra.
Qed.

End AccuracyBounds.

(** X13. The accuracy of a task lies between 0 and 100. It is 0 for a task
    without a positive estimate, and for a positive estimate it is 100
    exactly when the actual hours equal the estimate, and 0 exactly when
    they miss it by the estimate or more. *)
Theorem taskAccuracy_bounds (t : TaskId * Task.t) :
  let e := Task.estimatedHours t.2 in
  let a := Task.actualHours t.2 in
  let p := accuracyPercent (taskAccuracyOf t) in
  (0 <= p)%Q ∧ (p <= 100)%Q
  ∧ ((e <= 0)%Q → (p == 0)%Q)
  ∧ ((0 < e)%Q →
     ((p == 100)%Q ↔ (a == e)%Q)
     ∧ ((p == 0)%Q ↔ (e <= Qabs (a - e))%Q)).
Proof.
  intros e a p. subst p e a.
  rewrite (proj2 (taskAccuracy_spec t)). apply accuracyPercent_bounds.
Qed.

Lemma taskAccuracy_bounds_witness :
  (accuracyPercent
     (taskAccuracyOf (7%nat, Task.mk 1%nat "Essay" "History" "medium" (Some 0%Z) 10 10
                         "pending"))
   == 100)%Q.
Proof.
  destruct (taskAccuracy_bounds
              (7%nat, Task.mk 1%nat "Essay" "History" "medium" (Some 0%Z) 10 10
                         "pending"))
    as (_ & _ & _ & H).
  destruct (H ltac:(reflexivity)) as [[_ H100] _].
  apply H100. reflexivity.
Defined.

Lemma Math_max_compat (x y : Q) :
  (x == y)%Q → (Math_max 0 x == Math_max 0 y)%Q.
Proof.
  intros Hxy.
  destruct (Math_max_0 x) as (_ & _ & Hpx & Hnx).
  destruct (Math_max_0 y) as (_ & _ & Hpy & Hny).
  destruct (Qlt_le_dec x 0) as [Hl|Hl].
  - rewrite (Hnx ltac:(lra)), (Hny ltac:(lra)). reflexivity.
  - rewrite (Hpx Hl), (Hpy ltac:(lra)). exact Hxy.
Qed.

(** X14. The accuracy of a task treats over- and under-estimation alike:
    two tasks with the same estimate, one as far above it as the other is
    below, have the same accuracy. *)
Theorem taskAccuracy_symmetric (t1 t2 : TaskId * Task.t) :
  Task.estimatedHours t1.2 = Task.estimatedHours t2.2 →
  (Task.actualHours t1.2 - Task.estimatedHours t1.2
   == Task.estimatedHours t2.2 - Task.actualHours t2.2)%Q →
  (accuracyPercent (taskAccuracyOf t1)
   == accuracyPercent (taskAccuracyOf t2))%Q.
Proof.
  intros He Hd. unfold taskAccuracyOf. cbn. rewrite <- He in *.
  destruct (gt (Task.estimatedHours t1.2) 0) eqn:Hg; [|reflexivity].
  apply gt_true in Hg. apply Math_max_compat.
  assert (Habs : (Qabs (Task.actualHours t1.2 - Task.estimatedHours t1.2)
                  == Qabs (Task.actualHours t2.2
                           - Task.estimatedHours t1.2))%Q).
  { rewrite Hd. rewrite <- (Qabs_opp (Task.actualHours t2.2 - _)).
    apply Qabs_wd. ring. }
  rewrite Habs. reflexivity.
Qed.

Lemma taskAccuracy_symmetric_witness :
  (accuracyPercent
     (taskAccuracyOf (7%nat, Task.mk 1%nat "Essay" "History" "medium" (Some 0%Z) 10 12
                         "pending"))
   == accuracyPercent
        (taskAccuracyOf (8%nat, Task.mk 1%nat "Notes" "History" "low" (Some 0%Z) 10 8
                            "pending")))%Q.
Proof.
  apply taskAccuracy_symmetric; reflexivity.
Defined.

(** X15. The overall accuracy is 0 without a positive total estimate.
    With one it never exceeds 100, and it is negative exactly when the
    total of the actual hours is more than twice the total estimate (or
    negative); when it is not negative it is the value that the per-task
    formula gives for the two totals. *)
Theorem overallAccuracy_range (tasks : list (TaskId * Task.t)) :
  let E := totalEstimated tasks in
  let A := totalActual tasks in
  ((E <= 0)%Q → overallAccuracy tasks = 0%Q)
  ∧ ((0 < E)%Q →
     (overallAccuracy tasks <= 100)%Q
     ∧ ((overallAccuracy tasks < 0)%Q ↔ (2 * E < A)%Q ∨ (A < 0)%Q)
     ∧ ((0 <= overallAccuracy tasks)%Q →
        overallAccuracy tasks = Spec.accuracyPercent E A)).
Proof.
  intros E A. split.
  - intros HE. unfold overallAccuracy. fold E.
    destruct (gt E 0) eqn:Hg; [|reflexivity].
    apply gt_true in Hg. lra.
  - intros HE.
    pose proof (overallAccuracy_sums tasks) as Hspec. fold E A in Hspec.
    destruct (Math_max_0 (overallAccuracy tasks)) as (_ & _ & Hpos & _).
    split; [|split].
    + unfold overallAccuracy. fold E A.
      rewrite (proj2 (gt_true E 0) HE).
      pose proof (Qabs_nonneg (A - E)) as Habs.
      assert (Hre : ((E - Qabs (A - E)) / E * 100 * E
                     == (E - Qabs (A - E)) * 100)%Q) by (field; lra).
      set (r := ((E - Qabs (A - E)) / E * 100)%Q) in *. clearbody r.
      destruct (Qlt_le_dec r 0) as [Hl|Hl]; [lra|].
      assert (0 <= r * E)%Q by (apply Qmult_le_0_compat; lra). nra.
    + unfold overallAccuracy. fold E A.
      rewrite (proj2 (gt_true E 0) HE).
      assert (Hre : ((E - Qabs (A - E)) / E * 100 * E
                     == (E - Qabs (A - E)) * 100)%Q) by (field; lra).
      assert (Hcase : (E < Qabs (A - E))%Q ↔ (2 * E < A)%Q ∨ (A < 0)%Q).
      { apply (Qabs_case (A - E)
                 (λ y, E < y ↔ 2 * E < A ∨ A < 0)%Q); intros Hs; split.
        - intros H. left. lra.
        - intros [H|H]; lra.
        - intros H. right. lra.
        - intros [H|H]; lra. }
      rewrite <- Hcase.
      set (r := ((E - Qabs (A - E)) / E * 100)%Q) in *. clearbody r.
      set (d := Qabs (A - E)) in *. clearbody d.
      split; intros H.
      * assert (0 < (- r) * E)%Q by (apply Qmult_lt_0_compat; lra). nra.
      * destruct (Qlt_le_dec r 0) as [Hl|Hl]; [exact Hl|].
        assert (0 <= r * E)%Q by (apply Qmult_le_0_compat; lra). nra.
    + intros H0. rewrite Hspec. symmetry. by apply Hpos.
Qed.

Lemma overallAccuracy_range_witness :
  (overallAccuracy Examples.overrun < 0)%Q.
Proof.
  destruct (overallAccuracy_range Examples.overrun) as [_ H].
  destruct (H ltac:(reflexivity)) as (_ & Hneg & _).
  apply Hneg. left. reflexivity.
Defined.

Section Insights.

Lemma mostProductiveHour_range (zone : Zone.t) (sessions : list Populated) :
  0 ≤ mostProductiveHour zone sessions ≤ 23.
Proof.
  unfold mostProductiveHour, mostProductive, HourObject.entries.
  pose proof (pickHour_fold (hourlyData zone sessions) 0 Double.zero) as Hp.
  cbn zeta in Hp.
  destruct (foldl pickHour (0, Double.zero) (hourlyData zone sessions)) as [h v].
  cbn [fst].
  destruct Hp as [[[= -> ->] _]|(l1 & l2 & Hl & _)]; [lia|].
  assert (Hin : (h, v) ∈ hourlyData zone sessions).
  { rewrite Hl. apply elem_of_app. right. by left. }
  apply hourlyData_entry in Hin as [_ (s & _ & <-)].
  unfold getHours.
  pose proof (Z.mod_pos_bound
                (Zone.localTime zone (startTime s) / 3600000) 24 ltac:(lia)).
  lia.
Qed.

Lemma insightPeak_note (zone : Zone.t) (sessions : list Populated) :
  insightPeak zone sessions
  = [Measure.peakNote (mostProductiveHour zone sessions)].
Proof.
  unfold insightPeak, Measure.peakNote, Measure.clock12.
  pose proof (mostProductiveHour_range zone sessions) as Hr.
  set (h := mostProductiveHour zone sessions) in *. clearbody h.
  assert (Hgate : negb (bool_decide (h = 0)) || bool_decide (h = 0) = true).
  { destruct (bool_decide (h = 0)); reflexivity. }
  rewrite Hgate.
  assert (Hrem : (h + 11) `rem` 12 + 1
                 = if decide (h = 0) then 12
                   else if decide (h ≤ 12) then h else h - 12).
  { rewrite Z.rem_mod_nonneg by lia.
    destruct (decide (h = 0)) as [->|H0]; [reflexivity|].
    destruct (decide (h ≤ 12)) as [Hle|Hgt].
    - replace (h + 11) with ((h - 1) + 1 * 12) by lia.
      rewrite Z.mod_add by lia. rewrite Z.mod_small by lia. lia.
    - replace (h + 11) with ((h - 13) + 2 * 12) by lia.
      rewrite Z.mod_add by lia. rewrite Z.mod_small by lia. lia. }
  rewrite Hrem.
  assert (Hm : (if bool_decide (h >= 12) then "PM" else "AM")
               = (if decide (h < 12) then "AM" else "PM")).
  { destruct (bool_decide_reflect (h >= 12)); destruct (decide (h < 12));
      try reflexivity; exfalso; lia. }
  rewrite Hm. reflexivity.
Qed.

Lemma insight_lengths (now : Z) (zone : Zone.t) (sessions : list Populated)
    (tasks : list (TaskId * Task.t)) :
  (length (insightPomodoros now sessions) ≤ 1)%nat
  ∧ (length (insightAccuracy tasks) ≤ 1)%nat
  ∧ (length (insightStreak now zone sessions) ≤ 1)%nat
  ∧ (length (insightSubjects tasks) ≤ 1)%nat.
Proof.
  unfold insightPomodoros, insightAccuracy, insightStreak, insightSubjects.
  repeat split.
  - case_bool_decide; cbn; lia.
  - destruct (gt 50 _); [cbn; lia|]. destruct (gt _ 80); cbn; lia.
  - case_bool_decide; cbn; lia.
  - case_bool_decide; cbn; lia.
Qed.

End Insights.

(** X16. The insights are never empty and never more than five. The note
    on the peak hour is always among them, also without any session; it
    names the most productive hour, which lies between 0 and 23, on the
    12-hour clock (0 is "12 AM", 13 is "1 PM"). *)
Theorem insights_always_peak
    (now : Z) (zone : Zone.t) (sessions : list Populated) (tasks : list (TaskId * Task.t)) :
  (1 ≤ length (insights now zone sessions tasks) ≤ 5)%nat
  ∧ 0 ≤ mostProductiveHour zone sessions ≤ 23
  ∧ Measure.peakNote (mostProductiveHour zone sessions)
    ∈ insights now zone sessions tasks.
Proof.
  destruct (insight_lengths now zone sessions tasks) as (H1 & H2 & H3 & H4).
  unfold insights. rewrite !length_app, insightPeak_note. cbn [length].
  split; [lia|]. split; [apply mostProductiveHour_range|].
  rewrite !elem_of_app. right. right. left. by left.
Qed.

(** Two strings differ when their fifth bytes do. *)
Ltac fifth_byte H :=
  exfalso; apply (f_equal (String.get 4%nat)) in H; lazy in H;
  discriminate H.

(** The shape of the four insights that carry a value. *)
Lemma insight_shapes (now : Z) (zone : Zone.t) (sessions : list Populated)
    (tasks : list (TaskId * Task.t)) :
  (insightPomodoros now sessions = []
   ∨ ∃ p, insightPomodoros now sessions
          = ["You've completed " +:+ p +:+ " Pomodoros this week! ðŸŽ‰"])
  ∧ (∃ p, insightPeak zone sessions
          = ["ðŸ“Š Your peak productivity is around " +:+ p
             +:+ ". Schedule important tasks then!"])
  ∧ (insightStreak now zone sessions = []
     ∨ ∃ p, insightStreak now zone sessions
            = ["ðŸ”¥ You're on a " +:+ p +:+ "-day study streak!"])
  ∧ (insightSubjects tasks = []
     ∨ ∃ p, insightSubjects tasks
            = ["ðŸ’¡ You consistently underestimate " +:+ p
               +:+ " tasks. Consider adding more time."]).
Proof.
  split; [|split; [|split]].
  - unfold insightPomodoros. case_bool_decide; [right|left; reflexivity].
    eexists. reflexivity.
  - rewrite insightPeak_note. unfold Measure.peakNote. eexists. reflexivity.
  - unfold insightStreak. case_bool_decide; [right|left; reflexivity].
    eexists. reflexivity.
  - unfold insightSubjects. case_bool_decide; [right|left; reflexivity].
    eexists. reflexivity.
Qed.

Lemma not_an_accuracy_insight (x : string) (l : list string) (a b : string) :
  x = Measure.accuracyWarning ∨ x = Measure.accuracyPraise →
  String.get 4%nat a ≠ String.get 4%nat Measure.accuracyWarning →
  String.get 4%nat a ≠ String.get 4%nat Measure.accuracyPraise →
  (l = [] ∨ ∃ p, l = [a +:+ p +:+ b]) →
  (∀ p, String.get 4%nat (a +:+ p +:+ b) = String.get 4%nat a) →
  x ∉ l.
Proof.
  intros Hx Hw Hp Hl Hget Hin.
  destruct Hl as [->|[p ->]]; [by apply elem_of_nil in Hin|].
  apply list_elem_of_singleton in Hin. subst x.
  destruct Hx as [Hx|Hx]; apply (f_equal (String.get 4%nat)) in Hx;
    rewrite Hget in Hx; congruence.
Qed.

(** X17. The two insights on the estimates depend on the overall accuracy
    alone and exclude each other: the warning is in the list exactly when
    the overall accuracy is below 50, the praise exactly when it is above
    80, and between 50 and 80 neither is. *)
Theorem insights_on_accuracy
    (now : Z) (zone : Zone.t) (sessions : list Populated) (tasks : list (TaskId * Task.t)) :
  (Measure.accuracyWarning ∈ insights now zone sessions tasks
   ↔ (overallAccuracy tasks < 50)%Q)
  ∧ (Measure.accuracyPraise ∈ insights now zone sessions tasks
     ↔ (80 < overallAccuracy tasks)%Q).
Proof.
  destruct (insight_shapes now zone sessions tasks)
    as (Hpom & Hpeak & Hstreak & Hsubj).
  assert (Hother : ∀ x,
            x = Measure.accuracyWarning ∨ x = Measure.accuracyPraise →
            x ∈ insights now zone sessions tasks ↔ x ∈ insightAccuracy tasks).
  { intros x Hx. unfold insights. rewrite !elem_of_app. split; [|tauto].
    intros [H|[H|[H|[H|H]]]]; [exfalso| exact H |exfalso|exfalso|exfalso];
      revert H.
    - refine (not_an_accuracy_insight x _ _ _ Hx _ _ Hpom _);
        [lazy; discriminate|lazy; discriminate|reflexivity].
    - refine (not_an_accuracy_insight x _ _ _ Hx _ _ (or_intror Hpeak) _);
        [lazy; discriminate|lazy; discriminate|reflexivity].
    - refine (not_an_accuracy_insight x _ _ _ Hx _ _ Hstreak _);
        [lazy; discriminate|lazy; discriminate|reflexivity].
    - refine (not_an_accuracy_insight x _ _ _ Hx _ _ Hsubj _);
        [lazy; discriminate|lazy; discriminate|reflexivity]. }
  clear Hpom Hpeak Hstreak Hsubj.
  rewrite (Hother Measure.accuracyWarning) by (left; reflexivity).
  rewrite (Hother Measure.accuracyPraise) by (right; reflexivity).
  clear Hother. unfold insightAccuracy.
  destruct (gt 50 (overallAccuracy tasks)) eqn:H50.
  - apply gt_true in H50. split.
    + split; [intros _; exact H50|intros _; apply list_elem_of_here].
    + split; [|intros; exfalso; lra]. intros H.
      apply list_elem_of_singleton in H. fifth_byte H.
  - apply gt_false in H50.
    destruct (gt (overallAccuracy tasks) 80) eqn:H80.
    + apply gt_true in H80. split.
      * split; [|intros; exfalso; lra]. intros H.
        apply list_elem_of_singleton in H. fifth_byte H.
      * split; [intros _; exact H80|intros _; apply list_elem_of_here].
    + apply gt_false in H80. split.
      * split; [intros H; by apply elem_of_nil in H|intros; exfalso; lra].
      * split; [intros H; by apply elem_of_nil in H|intros; exfalso; lra].
Qed.

Section SteadyZones.




End SteadyZones.







Section Pomodoros.

Lemma foldl_pomodoros_shift (l : list Populated) :
  ∀ a, foldl (λ sum s, sum + pomodorosCompleted s) a l
       = a + foldl (λ sum s, sum + pomodorosCompleted s) 0 l.
Proof.
  induction l as [|s l IH]; intros a; cbn [foldl]; [lia|].
  rewrite IH, (IH (0 + pomodorosCompleted s)). lia.
Qed.

Lemma weekly_le_total (now : Z) (l : list Populated) :
  (∀ s, s ∈ l → 0 ≤ pomodorosCompleted s) →
  0 ≤ weeklyPomodoros now l ≤ totalPomodoros l.
Proof.
  unfold weeklyPomodoros, totalPomodoros, recentSessions.
  induction l as [|s l IH]; intros Hnn; [cbn; lia|].
  assert (Hs : 0 ≤ pomodorosCompleted s) by (apply Hnn; by left).
  assert (Hl : ∀ s', s' ∈ l → 0 ≤ pomodorosCompleted s')
    by (intros; apply Hnn; by right).
  specialize (IH Hl). rewrite filter_cons.
  cbn [foldl]. rewrite (foldl_pomodoros_shift l (0 + _)).
  case_decide.
  - cbn [foldl]. rewrite (foldl_pomodoros_shift _ (0 + _)). lia.
  - lia.
Qed.

End Pomodoros.

(** X19. When no session has a negative pomodoro count, the pomodoros of
    the week lie between 0 and the total; they are the whole total when
    every session started within the last 7 times 24 hours, and 0 when
    none did. *)
Theorem weeklyPomodoros_bounds (now : Z) (sessions : list Populated) :
  ((∀ s, s ∈ sessions → 0 ≤ pomodorosCompleted s) →
   0 ≤ weeklyPomodoros now sessions ≤ totalPomodoros sessions)
  ∧ ((∀ s, s ∈ sessions → now - 604800000 ≤ startTime s) →
     weeklyPomodoros now sessions = totalPomodoros sessions)
  ∧ ((∀ s, s ∈ sessions → startTime s < now - 604800000) →
     weeklyPomodoros now sessions = 0).
Proof.
  split; [apply weekly_le_total|].
  unfold weeklyPomodoros, totalPomodoros, recentSessions, sevenDaysAgo.
  split; intros H.
  - f_equal. induction sessions as [|s l IH]; [reflexivity|].
    rewrite filter_cons_True by (apply H; by left).
    f_equal. apply IH. intros; apply H. by right.
  - assert (Hnil : filter (λ s, now - 7 * 24 * 60 * 60 * 1000 ≤ startTime s)
                     sessions = []).
    { induction sessions as [|s l IH]; [reflexivity|].
      rewrite filter_cons_False.
      - apply IH. intros; apply H. by right.
      - specialize (H s ltac:(by left)). lia. }
    rewrite Hnil. reflexivity.
Qed.

Lemma weeklyPomodoros_bounds_witness :
  0 ≤ weeklyPomodoros Examples.noon Examples.threeDays ≤ 3
  ∧ weeklyPomodoros Examples.noon Examples.threeDays = 3.
Proof.
  destruct (weeklyPomodoros_bounds Examples.noon Examples.threeDays)
    as (H1 & H2 & _).
  split.
  - apply H1. intros s Hs. unfold Examples.threeDays in Hs.
    rewrite !elem_of_cons, elem_of_nil in Hs.
    destruct Hs as [->|[->|[->|[]]]]; vm_compute; discriminate.
  - rewrite H2; [reflexivity|]. intros s Hs. unfold Examples.threeDays in Hs.
    rewrite !elem_of_cons, elem_of_nil in Hs.
    destruct Hs as [->|[->|[->|[]]]]; vm_compute; discriminate.
Defined.

(** * Objects with string keys *)

Section JsObjects.

Context {V : Type}.
Implicit Types (o : list (string * V)) (k : string) (v : V).

Lemma js_get_set k k' v o :
  JsObject.get k' (JsObject.set k v o)
  = if decide (k' = k) then Some v else JsObject.get k' o.
Proof.
  induction o as [|[k1 v1] o IH]; cbn.
  - repeat case_decide; try reflexivity; congruence.
  - destruct (decide (k1 = k)) as [->|Hne]; cbn.
    + repeat case_decide; try reflexivity; congruence.
    + rewrite IH. repeat case_decide; try reflexivity; congruence.
Qed.

(** An assignment to [__proto__] creates no property. *)
Lemma js_get_assign k k' v o :
  JsObject.get k' (JsObject.assign k v o)
  = if decide (k = "__proto__") then JsObject.get k' o
    else if decide (k' = k) then Some v else JsObject.get k' o.
Proof.
  unfold JsObject.assign. case_decide; [reflexivity|apply js_get_set].
Qed.

End JsObjects.

Section Subjects.

Lemma fmap_filter_nonempty {A B : Type} (f : A → B) (P : A → Prop)
    `{∀ x, Decision (P x)} (l : list A) :
  f <$> filter P l ≠ [] ↔ ∃ x, x ∈ l ∧ P x.
Proof.
  induction l as [|a l IH].
  - cbn. split; [done|]. intros (x & Hx & _). by apply elem_of_nil in Hx.
  - rewrite filter_cons. destruct (decide (P a)) as [Ha|Ha].
    + split; [|done]. intros _. exists a. split; [by left|exact Ha].
    + rewrite IH. split.
      * intros (x & Hx & HP). exists x. split; [by right|exact HP].
      * intros (x & Hx & HP). exists x. split; [|exact HP].
        apply elem_of_cons in Hx as [->|Hx]; [contradiction|exact Hx].
Qed.

Lemma subjectHours_cons (s : Populated) (ss : list Populated) (k : string) :
  Spec.subjectHours (s :: ss) k
  = if decide (Task.subject <$> s.2 = Some k)
    then Spec.sixtieth (StudySession.totalMinutes s.1)
         :: Spec.subjectHours ss k
    else Spec.subjectHours ss k.
Proof.
  unfold Spec.subjectHours. rewrite filter_cons. case_decide; reflexivity.
Qed.

(** A session changes the entry of the subject of its task, when the task
    is there, and no other entry. *)
Lemma get_addSubject (o : JsObject.t Cell) (s : Populated) (k : string) :
  k ≠ "__proto__" →
  JsObject.get k (addSubject o s)
  = if decide (Task.subject <$> s.2 = Some k)
    then
      let hours := Spec.sixtieth (StudySession.totalMinutes s.1) in
      Some (match JsObject.get k o with
            | Some (Hours v) =>
                Hours (SFadd 53 1024
                         (match v with
                          | S754_nan | S754_zero _ => S754_zero false
                          | _ => v
                          end) hours)
            | Some (Text added) => Text (added ++ [hours])
            | None =>
                if decide (JsObject.inherited k) then Text [hours]
                else Hours (SFadd 53 1024 (S754_zero false) hours)
            end)
    else JsObject.get k o.
Proof.
  intros Hk. unfold addSubject. destruct s.2 as [task|]; cbn [fmap option_fmap option_map].
  - rewrite js_get_assign.
    destruct (decide (Task.subject task = "__proto__")) as [Hp|Hp].
    + rewrite decide_False; [reflexivity|]. intros [= Heq]. congruence.
    + destruct (decide (k = Task.subject task)) as [->|Hne].
      * rewrite decide_True by reflexivity. cbn zeta. f_equal.
        unfold JsObject.read.
        destruct (JsObject.get (Task.subject task) o) as [[v|added]|].
        -- f_equal. apply runningSum_step.
        -- reflexivity.
        -- case_decide; reflexivity.
      * rewrite decide_False; [reflexivity|]. intros [= Heq]. congruence.
  - rewrite decide_False by discriminate. reflexivity.
Qed.

Lemma get_addSubject_proto (o : JsObject.t Cell) (s : Populated) :
  JsObject.get "__proto__" (addSubject o s) = JsObject.get "__proto__" o.
Proof.
  unfold addSubject. destruct s.2 as [task|]; [|reflexivity].
  rewrite js_get_assign.
  destruct (decide (Task.subject task = "__proto__")); [reflexivity|].
  rewrite decide_False by congruence. reflexivity.
Qed.

(** The entry of subject [k] after the sessions [ss] were added to [o]. *)
Lemma subjectData_get (ss : list Populated) (k : string) :
  k ≠ "__proto__" →
  ∀ o : JsObject.t Cell,
    let hs := Spec.subjectHours ss k in
    let sum v :=
      foldl (λ acc x, SFadd 53 1024
                        (match acc with
                         | S754_nan | S754_zero _ => S754_zero false
                         | _ => acc
                         end) x) v hs in
    JsObject.get k (foldl addSubject o ss)
    = match JsObject.get k o with
      | Some (Hours v) => Some (Hours (sum v))
      | Some (Text added) => Some (Text (added ++ hs))
      | None =>
          if decide (hs = []) then None
          else if decide (JsObject.inherited k) then Some (Text hs)
          else Some (Hours (sum (S754_zero false)))
      end.
Proof.
  intros Hk.
  induction ss as [|s ss IH]; intros o; cbn zeta.
  - cbn. destruct (JsObject.get k o) as [[v|added]|]; try reflexivity.
    by rewrite app_nil_r.
  - cbn [foldl]. cbn zeta in IH. rewrite IH, (get_addSubject _ _ _ Hk).
    rewrite subjectHours_cons.
    destruct (decide (Task.subject <$> s.2 = Some k)) as [Hs|Hs];
      [|reflexivity].
    cbn zeta. cbn [foldl].
    destruct (JsObject.get k o) as [[v|added]|].
    + reflexivity.
    + by rewrite <- app_assoc.
    + rewrite (decide_False (P := _ :: _ = [])) by discriminate.
      destruct (decide (JsObject.inherited k)); reflexivity.
Qed.

Lemma subjectData_get_proto (ss : list Populated) :
  ∀ o : JsObject.t Cell,
    JsObject.get "__proto__" (foldl addSubject o ss)
    = JsObject.get "__proto__" o.
Proof.
  induction ss as [|s ss IH]; intros o; [reflexivity|].
  cbn [foldl]. rewrite IH. apply get_addSubject_proto.
Qed.

End Subjects.

(** X21. The breakdown by subject. A subject has an entry exactly when a
    session's task is there and carries that subject, unless the subject
    is [__proto__], which never gets an entry. For a subject that is not
    the name of a member that every object inherits, the entry is the sum
    of [totalMinutes / 60] over these sessions, added in their order. For
    one that is such a name ([constructor], [toString], ...), the entry is
    not a number: it is the string made of the inherited member and, one
    after the other, of these quotients. A session whose task is gone adds
    to no subject. *)
Theorem subject_breakdown (sessions : list Populated) (k : string) :
  let hs := Spec.subjectHours sessions k in
  JsObject.get k (subjectData sessions)
  = (if decide (hs = []) then None
     else if decide (k = "__proto__") then None
     else if decide (JsObject.inherited k) then Some (Text hs)
     else Some (Hours (Spec.runningSum hs)))
  ∧ (hs ≠ [] ↔ ∃ s task, s ∈ sessions ∧ s.2 = Some task
                          ∧ Task.subject task = k).
Proof.
  cbn zeta. split.
  - unfold subjectData.
    destruct (decide (k = "__proto__")) as [->|Hk].
    + rewrite subjectData_get_proto. cbn. case_decide; reflexivity.
    + rewrite (subjectData_get sessions k Hk []). reflexivity.
  - unfold Spec.subjectHours. rewrite fmap_filter_nonempty. split.
    + intros (s & Hin & Hs).
      destruct s.2 as [task|] eqn:Ht; [|discriminate].
      exists s, task. injection Hs as Hs. done.
    + intros (s & task & Hin & Ht & Hs). exists s. split; [exact Hin|].
      rewrite Ht. cbn. by rewrite Hs.
Qed.

Lemma subject_breakdown_witness :
  (∃ v, JsObject.get "History" (subjectData Examples.onClasses)
        = Some (Hours v)
        ∧ Double.value v = Some (3 # 4)%Q)
  ∧ JsObject.get "constructor" (subjectData Examples.onClasses)
    = Some (Text [Double.div (Double.ofZ 1) (Double.ofZ 2); Double.ofZ 1])
  ∧ JsObject.get "Physics" (subjectData Examples.onClasses) = None.
Proof.
  split; [|split].
  - destruct (subject_breakdown Examples.onClasses "History") as [H _].
    eexists. split; [rewrite H; vm_compute; reflexivity|].
    vm_compute. reflexivity.
  - destruct (subject_breakdown Examples.onClasses "constructor") as [H _].
    rewrite H. vm_compute. reflexivity.
  - destruct (subject_breakdown Examples.onClasses "Physics") as [H _].
    rewrite H. vm_compute. reflexivity.
Defined.

(** * The timer *)

Section TimerFacts.

Lemma duration_cases (st : Timer.State) :
  Timer.duration st = 1500 ∨ Timer.duration st = 900
  ∨ Timer.duration st = 300.
Proof.
  unfold Timer.duration. destruct (Timer.isBreak st); [|by left].
  case_bool_decide; [right; left|right; right]; reflexivity.
Qed.

Lemma timerSound_step (st : Timer.State) (e : Timer.Event) :
  Measure.timerSound st → Measure.timerSound (Timer.step st e).
Proof.
  intros [Ht Hp]. destruct e; cbn.
  - exact (conj Ht Hp).
  - exact (conj Ht Hp).
  - unfold Timer.tick.
    assert (Hcomplete : Measure.timerSound (Timer.handleTimerComplete st)).
    { unfold Timer.handleTimerComplete.
      destruct (Timer.isBreak st) eqn:Hb; cbn.
      - split; [|exact Hp]. unfold Timer.duration. cbn. lia.
      - split; [|cbn; lia]. unfold Timer.duration. cbn.
        destruct (bool_decide_reflect
                    ((Timer.pomodorosCompleted st + 1) `rem` 4 = 0)); lia. }
    destruct (bool_decide_reflect (Timer.timeLeft st > 0)) as [Hpos|Hpos];
      destruct (bool_decide_reflect (Timer.timeLeft st = 0)) as [Hz|Hz];
      destruct (Timer.isRunning st); cbn [andb];
      try exact Hcomplete; try exact (conj Ht Hp).
    + split; [|exact Hp]. unfold Timer.duration in *. cbn. lia.
    + split; [|exact Hp]. unfold Timer.duration in *. cbn. lia.
Qed.

End TimerFacts.

(** X23. The countdown stays within its interval. Whatever the user
    presses and however long the clock ticks, the time left is never
    negative and never more than the length of the current interval (25
    minutes of focus, 5 or 15 of break), the pomodoro count is never
    negative, and the progress bar stays between 0 and 100 percent. *)
Theorem timer_within_interval (events : list Timer.Event) :
  let st := Measure.timerRun Timer.initial events in
  0 ≤ Timer.timeLeft st ≤ Timer.duration st
  ∧ 0 ≤ Timer.pomodorosCompleted st
  ∧ (0 <= Timer.progress st)%Q ∧ (Timer.progress st <= 100)%Q.
Proof.
  cbn zeta.
  assert (Hs : Measure.timerSound (Measure.timerRun Timer.initial events)).
  { unfold Measure.timerRun.
    assert (H0 : Measure.timerSound Timer.initial)
      by (split; cbn; [unfold Timer.duration; cbn|]; lia).
    revert H0. generalize Timer.initial.
    induction events as [|e events IH]; intros st Hst; [exact Hst|].
    cbn [foldl]. apply IH. by apply timerSound_step. }
  set (st := Measure.timerRun Timer.initial events) in *. clearbody st.
  destruct Hs as [Ht Hp]. split; [exact Ht|]. split; [exact Hp|].
  assert (Hprog : (Timer.progress st
                   == inject_Z (Timer.duration st - Timer.timeLeft st)
                      / inject_Z (Timer.duration st) * 100)%Q).
  { unfold Timer.progress, Timer.duration.
    destruct (Timer.isBreak st); reflexivity. }
  rewrite Hprog.
  assert (HD : 0 < Timer.duration st)
    by (destruct (duration_cases st) as [H | [H | H]]; rewrite H; lia).
  set (D := Timer.duration st) in *. set (t := Timer.timeLeft st) in *.
  assert (HDq : (0 < inject_Z D)%Q)
    by (change 0%Q with (inject_Z 0); rewrite <- Zlt_Qlt; exact HD).
  assert (Hlo : (0 <= inject_Z (D - t))%Q)
    by (change 0%Q with (inject_Z 0); rewrite <- Zle_Qle; lia).
  assert (Hhi : (inject_Z (D - t) <= inject_Z D)%Q)
    by (rewrite <- Zle_Qle; lia).
  assert (Hq : (inject_Z (D - t) / inject_Z D * inject_Z D
                == inject_Z (D - t))%Q) by (field; lra).
  set (q := (inject_Z (D - t) / inject_Z D)%Q) in *. clearbody q.
  split.
  - assert (0 <= q)%Q; [|lra].
    destruct (Qlt_le_dec q 0) as [Hl|Hl]; [|exact Hl].
    assert (0 < (- q) * inject_Z D)%Q by (apply Qmult_lt_0_compat; lra).
    lra.
  - assert (q <= 1)%Q; [|lra].
    destruct (Qlt_le_dec 1 q) as [Hl|Hl]; [|exact Hl].
    assert (0 < (q - 1) * inject_Z D)%Q by (apply Qmult_lt_0_compat; lra).
    lra.
Qed.

Section TimerRuns.

Lemma countdown (n : nat) :
  ∀ st, Timer.isRunning st = true → Timer.timeLeft st = Z.of_nat n →
    Measure.timerRun st (replicate n Timer.Tick)
    = Timer.mkState 0 true (Timer.isPaused st) (Timer.isBreak st)
        (Timer.pomodorosCompleted st).
Proof.
  unfold Measure.timerRun.
  induction n as [|n IH]; intros st Hr Ht.
  - cbn. destruct st; cbn in *. subst. reflexivity.
  - cbn [replicate foldl Timer.step].
    assert (Htick : Timer.tick st
                    = Timer.mkState (Z.of_nat n) true (Timer.isPaused st)
                        (Timer.isBreak st) (Timer.pomodorosCompleted st)).
    { unfold Timer.tick. rewrite Hr, Ht.
      rewrite bool_decide_eq_true_2 by lia. cbn [andb]. f_equal. lia. }
    rewrite Htick. rewrite IH; reflexivity.
Qed.

End TimerRuns.

(** X24. A pomodoro and its break. A running focus interval with [n]
    seconds left ends after [n] ticks and the run of the effect that
    follows the last of them: the timer stops, the
    pomodoro count goes up by one, and a break is set of 15 minutes when
    the new count is a multiple of 4 and of 5 minutes otherwise. A running
    break ends in the same way, back to 25 minutes of focus with the count
    unchanged. *)
Theorem timer_interval_ends (st : Timer.State) (n : nat) :
  Timer.isRunning st = true →
  Timer.timeLeft st = Z.of_nat n →
  Measure.timerRun st (replicate (S n) Timer.Tick)
  = if Timer.isBreak st
    then Timer.mkState 1500 false (Timer.isPaused st) false
           (Timer.pomodorosCompleted st)
    else Timer.mkState
           (if decide ((Timer.pomodorosCompleted st + 1) `rem` 4 = 0)
            then 900 else 300)
           false (Timer.isPaused st) true (Timer.pomodorosCompleted st + 1).
Proof.
  intros Hr Ht.
  replace (S n) with (n + 1)%nat by lia.
  rewrite replicate_add. unfold Measure.timerRun. rewrite foldl_app.
  fold (Measure.timerRun st (replicate n Timer.Tick)).
  rewrite (countdown n st Hr Ht). cbn.
  unfold Timer.tick, Timer.handleTimerComplete. cbn.
  destruct (Timer.isBreak st); cbn; [reflexivity|].
  destruct (bool_decide_reflect
              ((Timer.pomodorosCompleted st + 1) `rem` 4 = 0)) as [H|H];
    destruct (decide ((Timer.pomodorosCompleted st + 1) `rem` 4 = 0))
      as [H'|H']; try reflexivity; exfalso; auto.
Qed.

Lemma timer_interval_ends_witness :
  Measure.timerRun (Timer.handleStart Timer.initial)
    (replicate 1501 Timer.Tick)
  = Timer.mkState 300 false false true 1.
Proof.
  rewrite (timer_interval_ends (Timer.handleStart Timer.initial) 1500);
    reflexivity.
Defined.

(** X25. The clock face. For a time below 100 minutes (0 to 5999
    seconds), [formatTime] shows two digits of minutes, a colon and two
    digits of seconds; the timer only shows times up to 25 minutes. At 6000
    seconds the minutes take three digits. *)
Theorem formatTime_mmss (seconds : Z) :
  0 ≤ seconds < 6000 →
  Timer.formatTime seconds
  = Measure.twoDigits (seconds / 60) +:+ ":"
    +:+ Measure.twoDigits (seconds `mod` 60)
  ∧ String.length (Timer.formatTime seconds) = 5%nat
  ∧ Timer.formatTime 6000 = "100:00".
Proof.
  intros Hs.
  assert (Hall : Forall (λ s, Timer.formatTime s
                              = Measure.twoDigits (s / 60) +:+ ":"
                                +:+ Measure.twoDigits (s `mod` 60))
                   (seqZ 0 6000)).
  { apply Forall_forall. intros s Hin.
    assert (Hb : forallb (λ s, bool_decide
                                 (Timer.formatTime s
                                  = Measure.twoDigits (s / 60) +:+ ":"
                                    +:+ Measure.twoDigits (s `mod` 60)))
                   (seqZ 0 6000) = true) by (vm_compute; reflexivity).
    rewrite forallb_forall in Hb. apply list_elem_of_In in Hin.
    specialize (Hb s Hin). by apply bool_decide_eq_true in Hb. }
  rewrite Forall_forall in Hall.
  assert (Heq := Hall seconds ltac:(apply elem_of_seqZ; lia)).
  split; [exact Heq|]. split; [|vm_compute; reflexivity].
  rewrite Heq. reflexivity.
Qed.

Lemma formatTime_mmss_witness : Timer.formatTime 1500 = "25:00".
Proof.
  destruct (formatTime_mmss 1500 ltac:(lia)) as [H _].
  rewrite H. reflexivity.
Defined.

(** X26. The breakdown by hour. An hour of the day has an entry exactly
    when a session started in it (server time), and the entry is the sum
    of [totalMinutes / 60] over these sessions, added in their order; the
    keys lie between 0 and 23 and come in ascending order. *)
Theorem hourly_breakdown
    (zone : Zone.t) (sessions : list Populated) (h : Z) :
  HourObject.ascending (hourlyData zone sessions)
  ∧ (is_Some (HourObject.get h (hourlyData zone sessions))
     ↔ ∃ s, s ∈ sessions ∧ getHours zone (startTime s) = h)
  ∧ (∀ v, HourObject.get h (hourlyData zone sessions) = Some v →
          v = Spec.hourTotal zone sessions h ∧ 0 ≤ h ≤ 23).
Proof.
  pose proof (hourlyData_ascending zone sessions [] (SSorted_nil _)) as Hasc.
  fold (hourlyData zone sessions) in Hasc.
  split; [exact Hasc|]. split.
  - split.
    + intros [v Hv]. apply get_elem_of in Hv.
      by apply hourlyData_entry in Hv as [_ Hex].
    + intros (s & Hin & <-). rewrite (hourlyData_has zone sessions s Hin).
      eauto.
  - intros v Hv. apply get_elem_of in Hv.
    apply hourlyData_entry in Hv as [Hq (s & _ & <-)].
    split; [exact Hq|]. unfold getHours.
    pose proof (Z.mod_pos_bound
                  (Zone.localTime zone (startTime s) / 3600000) 24
                  ltac:(lia)). lia.
Qed.

Lemma hourly_breakdown_witness :
  (∃ v, HourObject.get 5 (hourlyData Examples.newYork Examples.june) = Some v
        ∧ Double.value v = Some (9 # 4)%Q)
  ∧ (∃ v, HourObject.get 14 (hourlyData Examples.newYork Examples.june)
          = Some v
          ∧ Double.value v = Some (1 # 2)%Q)
  ∧ HourObject.get 9 (hourlyData Examples.newYork Examples.june) = None.
Proof.
  split; [|split].
  - destruct (hourly_breakdown Examples.newYork Examples.june 5)
      as (_ & [_ H] & Hv).
    destruct H as [v Hget].
    + exists (Examples.session_at
                (20254 * Examples.day + 9 * Examples.hour + 10 * 60000) 90).
      split; [by left|]. vm_compute. reflexivity.
    + exists v. split; [exact Hget|].
      rewrite (proj1 (Hv v Hget)). vm_compute. reflexivity.
  - destruct (hourly_breakdown Examples.newYork Examples.june 14)
      as (_ & [_ H] & Hv).
    destruct H as [v Hget].
    + exists (Examples.session_at (20240 * Examples.day + 18 * Examples.hour)
                30).
      split; [right; by left|]. vm_compute. reflexivity.
    + exists v. split; [exact Hget|].
      rewrite (proj1 (Hv v Hget)). vm_compute. reflexivity.
  - destruct (hourly_breakdown Examples.newYork Examples.june 9)
      as (_ & [H _] & _).
    destruct (HourObject.get 9 (hourlyData Examples.newYork Examples.june))
      as [v|] eqn:E; [|reflexivity].
    exfalso. destruct (H ltac:(eauto)) as (s & Hin & Hh).
    unfold Examples.june in Hin.
    rewrite !elem_of_cons, elem_of_nil in Hin.
    destruct Hin as [->|[->|[->|[]]]]; vm_compute in Hh; discriminate.
Defined.

Section Invisible.

Lemma findCompleted_Permutation (u : UserId) (db : Store)
    (i : SessionId) (s : StudySession.t) :
  sessions db !! i = None →
  StudySession.endTime s = None →
  findCompleted u (mkStore (<[i := s]> (sessions db)) (tasks db))
  ≡ₚ findCompleted u db.
Proof.
  intros Hi He. unfold findCompleted. cbn [sessions tasks].
  apply fmap_Permutation.
  rewrite (map_to_list_insert _ _ _ Hi).
  rewrite filter_cons_False; [reflexivity|].
  cbn. intros [_ Hne]. by apply Hne.
Qed.

End Invisible.

(** X27. An active session is invisible to the analytics. Whatever a
    [POST] answers, the completed sessions and the tasks that the
    analytics of any user are computed from are the same after it as
    before (the sessions up to their order). *)
Theorem start_changes_no_analytics_input
    (now : Z) (auth : option UserId) (t : option TaskId) (u : UserId)
    (db : Store) :
  findCompleted u (POST now auth t db).2 ≡ₚ findCompleted u db
  ∧ findTasks u (POST now auth t db).2 = findTasks u db.
Proof.
  unfold POST. destruct auth as [v|]; [|done].
  destruct (findActive v db); [done|].
  destruct t as [tid|]; [|done]. cbn. split; [|reflexivity].
  apply findCompleted_Permutation; [|reflexivity].
  apply not_elem_of_dom, is_fresh.
Qed.

